(** * color_palette_extractor: the service handler of [services.py]

    A shallow embedding of
    [custom_components/color_palette_extractor/services.py] and of the
    constants of [const.py].  The handler is effectful glue: it queries the
    host's allowlists, fetches or opens an image, asks ColorThief for colors
    and calls [light.turn_on].  Effects are modelled by a small trace-and-
    exception monad: a computation yields the events it performed, in order,
    and either a value or the exception it raised. *)

From stdpp Require Import base numbers option list strings gmap.

#[local] Set Warnings "-register-all".

Local Open Scope string_scope.
Local Open Scope list_scope.

(** ** Values, exceptions, events *)

Definition rgb : Type := Z * Z * Z.

(** What a service-data dictionary holds: strings, lists of entity ids,
    numbers (brightness, transition, ...), RGB tuples and nested
    dictionaries (the frontend's [metadata]). *)
Inductive value : Type :=
  | VStr (s : string)
  | VList (l : list string)
  | VInt (n : Z)
  | VRgb (c : rgb)
  | VDict (d : gmap string value).

(** The exception classes the module can meet. *)
Inductive exn : Type :=
  | NameError (name : string)
  | UnboundLocalError (name : string)
  | AttributeError (attr : string)
  | KeyError (key : string)
  | TypeError (what : string)
  | TimeoutError
  | ClientError (msg : string)            (* aiohttp.ClientError and subclasses *)
  | UnidentifiedImageError (msg : string) (* PIL *)
  | HomeAssistantError (msg : string)
  | Invalid (msg : string).               (* vol.Invalid *)

Inductive result (A : Type) : Type :=
  | Ok (a : A)
  | Raise (e : exn).
Arguments Ok {A} a.
Arguments Raise {A} e.

(** What ColorThief is built from: an in-memory buffer with a name (the URL
    branch) or a path string handed over as it is (the path branch). *)
Inductive file_handler : Type :=
  | BytesIO (content : string) (name : string)
  | FilePath (path : string).

Inductive logarg : Type :=
  | AStr (s : string)
  | AVal (v : value)
  | ANat (n : nat)
  | AColors (cs : list rgb)
  | AExn (e : exn).

Inductive event : Type :=
  | LogError (fmt : string) (args : list logarg)
  | LogDebug (fmt : string) (args : list logarg)
  | HttpGet (url : string) (timeout : nat)
  | ContentRead
  | ExecutorJob
  | ImageOpen (f : file_handler)
  | ThiefGetColor (quality : nat)
  | ThiefGetPalette (quality color_count : nat)
  | ServiceCallIssued (domain service : string) (data : gmap string value)
                      (blocking : bool)
  | ServiceCallCompleted (domain service : string) (data : gmap string value).

(** ** The effect monad *)

Definition M (A : Type) : Type := list event * result A.

Definition trace {A} (m : M A) : list event := m.1.
Definition outcome {A} (m : M A) : result A := m.2.

#[export] Instance M_ret : MRet M := λ A a, ([], Ok a).

#[export] Instance M_bind : MBind M := λ A B f m,
  match m with
  | (t, Ok a) => let '(t', r) := f a in (t ++ t', r)
  | (t, Raise e) => (t, Raise e)
  end.

#[export] Instance M_fmap : FMap M := λ A B f m,
  match m with
  | (t, Ok a) => (t, Ok (f a))
  | (t, Raise e) => (t, Raise e)
  end.

Definition emit (e : event) : M unit := ([e], Ok ()).
Definition raise {A} (e : exn) : M A := ([], Raise e).
Definition lift {A} (r : result A) : M A := ([], r).

(** [try: m except catches: h].  An exception of a class that is not listed
    goes on to the caller. *)
Definition try_except {A} (m : M A) (catches : exn → bool) (h : exn → M A)
  : M A :=
  match m with
  | (t, Raise e) =>
      if catches e then let '(t', r) := h e in (t ++ t', r) else (t, Raise e)
  | (t, Ok a) => (t, Ok a)
  end.

(** ** Constants *)

(** [const.py] *)
Definition ATTR_PATH : string := "color_extract_path".
Definition ATTR_URL : string := "color_extract_url".
Definition DOMAIN : string := "color_palette_extractor".
Definition DEFAULT_NAME : string := "Color Palette extractor".
Definition SERVICE_TURN_ON : string := "turn_on".

(** Imported from Home Assistant ([homeassistant.const] and
    [homeassistant.components.light]). *)
Definition ATTR_ENTITY_ID : string := "entity_id".
Definition ATTR_RGB_COLOR : string := "rgb_color".
Definition LIGHT_DOMAIN : string := "light".
Definition LIGHT_SERVICE_TURN_ON : string := "turn_on".

(** ** Collaborators *)

(** An aiohttp response: all the module does with it is
    [await response.content.read()]. *)
Record response : Type := { content_read : result string }.

(** The [hass] object, as far as the module uses it: the two allowlist
    predicates of [hass.config], the shared aiohttp session
    ([session.get(url)] run under [asyncio.timeout(seconds)]) and the service
    bus ([hass.services.async_call(domain, service, data, blocking)]). *)
Record HomeAssistant : Type := {
  is_allowed_external_url : string → bool;
  is_allowed_path : string → bool;
  session_get : string → nat → result response;
  services_async_call :
    string → string → gmap string value → bool → result unit;
}.

Record ServiceCall : Type := {
  sc_hass : HomeAssistant;
  sc_data : gmap string value;
}.

(** The colorthief library.  [ColorThief(file)] opens and decodes the image
    (PIL raises [UnidentifiedImageError] there); [get_color] and
    [get_palette] quantize it. *)
Record ColorThiefLib : Type := {
  thief_open : file_handler → result unit;
  thief_get_color : file_handler → nat → rgb;
  thief_get_palette : file_handler → nat → nat → list rgb;
}.

(** ** Python names and builtins *)

(** An object a global name of the module can be bound to. *)
Inductive pyobj : Type :=
  | PyHass (h : HomeAssistant)
  | PyModule (name : string)
  | PyClass (name : string)
  | PyFunction (name : string)
  | PyConst (s : string)
  | PyOther (descr : string).

(** The global names of [services.py], in the order the module binds them:
    its imports, [_LOGGER], [SERVICE_SCHEMA] and its functions.  A name that
    is read in a function body without being assigned there is looked up
    here (and then among the builtins, none of which is called [hass]). *)
Definition services_globals : gmap string pyobj :=
  list_to_map
    [ ("asyncio", PyModule "asyncio"); ("io", PyModule "io");
      ("logging", PyModule "logging"); ("aiohttp", PyModule "aiohttp");
      ("ColorThief", PyClass "ColorThief");
      ("UnidentifiedImageError", PyClass "UnidentifiedImageError");
      ("vol", PyModule "voluptuous");
      ("ATTR_RGB_COLOR", PyConst ATTR_RGB_COLOR);
      ("LIGHT_DOMAIN", PyConst LIGHT_DOMAIN);
      ("LIGHT_TURN_ON_SCHEMA", PyOther "dict");
      ("ATTR_ENTITY_ID", PyConst ATTR_ENTITY_ID);
      ("LIGHT_SERVICE_TURN_ON", PyConst LIGHT_SERVICE_TURN_ON);
      ("HomeAssistant", PyClass "HomeAssistant");
      ("ServiceCall", PyClass "ServiceCall");
      ("callback", PyFunction "callback");
      ("aiohttp_client", PyModule "homeassistant.helpers.aiohttp_client");
      ("cv", PyModule "homeassistant.helpers.config_validation");
      ("ATTR_PATH", PyConst ATTR_PATH); ("ATTR_URL", PyConst ATTR_URL);
      ("DOMAIN", PyConst DOMAIN); ("SERVICE_TURN_ON", PyConst SERVICE_TURN_ON);
      ("_LOGGER", PyOther "Logger"); ("SERVICE_SCHEMA", PyOther "vol.All");
      ("_get_file", PyFunction "_get_file");
      ("_get_color", PyFunction "_get_color");
      ("_async_extract_color_from_url",
        PyFunction "_async_extract_color_from_url");
      ("_extract_color_from_path", PyFunction "_extract_color_from_path");
      ("async_handle_service", PyFunction "async_handle_service");
      ("async_setup_services", PyFunction "async_setup_services") ].

(** Reading a global name. *)
Definition load_global (globals : gmap string pyobj) (name : string)
  : M pyobj :=
  match globals !! name with
  | Some o => mret o
  | None => raise (NameError name)
  end.

(** [obj.services]: only a [HomeAssistant] has a service bus. *)
Definition get_services (o : pyobj) : M HomeAssistant :=
  match o with
  | PyHass h => mret h
  | _ => raise (AttributeError "services")
  end.

(** [d[key]] *)
Definition getitem (d : gmap string value) (key : string) : M value :=
  match d !! key with
  | Some v => mret v
  | None => raise (KeyError key)
  end.

(** [len(v)]: characters of a string (entity ids are ASCII, one byte per
    character), items of a list or tuple, keys of a dictionary. *)
Definition len (v : value) : M nat :=
  match v with
  | VStr s => mret (String.length s)
  | VList l => mret (length l)
  | VRgb _ => mret 3%nat
  | VDict d => mret (size d)
  | VInt _ => raise (TypeError "object of type 'int' has no len()")
  end.

(** A reference handed to the host's allowlist checks is a string. *)
Definition as_str (v : value) : M string :=
  match v with
  | VStr s => mret s
  | _ => raise (TypeError "expected str")
  end.

(** Truthiness of what the extraction step returns: [None] and the empty
    list are false. *)
Definition truthy (colors : option (list rgb)) : bool :=
  match colors with
  | None | Some [] => false
  | Some (_ :: _) => true
  end.

(** [await hass.services.async_call(domain, service, data, blocking=...)]:
    the call is issued, and the await resumes when the bus answers. *)
Definition async_call (h : HomeAssistant) (domain service : string)
    (data : gmap string value) (blocking : bool) : M unit :=
  emit (ServiceCallIssued domain service data blocking);;
  lift (services_async_call h domain service data blocking);;
  emit (ServiceCallCompleted domain service data).

(** ** [services.py] *)

Section Services.
Variable colorthief : ColorThiefLib.

Definition _get_file (file_path : string) : file_handler :=
  FilePath file_path.

Definition _get_color (file_handler : file_handler) (light_count : nat)
  : M (list rgb) :=
  emit (ImageOpen file_handler);;
  lift (thief_open colorthief file_handler);;
  colors ←
    (if decide (light_count = 1%nat) then
       emit (ThiefGetColor 1);;
       let colors := [thief_get_color colorthief file_handler 1] in
       emit (LogDebug "get_palette response: %s" [AColors colors]);;
       mret colors
     else
       emit (ThiefGetPalette 1 light_count);;
       let colors :=
         thief_get_palette colorthief file_handler 1 light_count in
       emit (LogDebug "get_palette response: %s" [AColors colors]);;
       mret colors);
  emit (LogDebug "Extracted %d RGB colors from image"
          [ANat (length colors)]);;
  mret colors.

(** The classes of [except (TimeoutError, aiohttp.ClientError)]. *)
Definition is_http_error (e : exn) : bool :=
  match e with
  | TimeoutError | ClientError _ => true
  | _ => false
  end.

Definition _async_extract_color_from_url (hass : HomeAssistant)
    (url : string) (number_of_lights : nat) : M (option (list rgb)) :=
  if negb (is_allowed_external_url hass url) then
    emit (LogError
      "External URL '%s' is not allowed, please add to 'allowlist_external_urls'"
      [AStr url]);;
    mret None
  else
    emit (LogDebug "Getting predominant RGB from image URL '%s'"
            [AStr url]);;
    got ← try_except
             (emit (HttpGet url 10);;
              response ← lift (session_get hass url 10);
              mret (Some response))
             is_http_error
             (λ err,
                emit (LogError
                  "Failed to get ColorThief image due to HTTPError: %s"
                  [AExn err]);;
                mret None);
    match got with
    | None => mret None
    | Some response =>
        emit ContentRead;;
        content ← lift (content_read response);
        let _file := BytesIO content "color_palette_extractor.jpg" in
        colors ← _get_color _file number_of_lights;
        mret (Some colors)
    end.

Definition _extract_color_from_path (hass : HomeAssistant)
    (file_path : string) (number_of_lights : nat) : M (option (list rgb)) :=
  if negb (is_allowed_path hass file_path) then
    emit (LogError
      "File path '%s' is not allowed, please add to 'allowlist_external_dirs'"
      [AStr file_path]);;
    mret None
  else
    emit (LogDebug "Getting predominant RGB from file path '%s'"
            [AStr file_path]);;
    let _file := _get_file file_path in
    colors ← _get_color _file number_of_lights;
    mret (Some colors).

(** [hass.async_add_executor_job]: [f] runs on a worker thread
    and the await yields what it returns or raises. *)
Definition async_add_executor_job {A} (job : M A) : M A :=
  emit ExecutorJob;; job.

Definition is_unidentified_image (e : exn) : bool :=
  match e with UnidentifiedImageError _ => true | _ => false end.

(** Where the handler stands after its [try] statement: the [except]
    branch has returned, or control goes on with the service data (the
    image reference popped) and the local [colors], which no branch has
    bound when neither reference is in the data. *)
Inductive flow : Type :=
  | Returned
  | Continue (service_data : gmap string value)
             (colors : option (option (list rgb))).

(** [except UnidentifiedImageError as ex: _LOGGER.error(...); return] *)
Definition bad_image (image_type : string) (image_reference : value)
    (ex : exn) : M flow :=
  emit (LogError
    "Bad image from %s '%s' provided, are you sure it's an image? %s"
    [AStr image_type; AVal image_reference; AExn ex]);;
  mret Returned.

(** The [try] statement of [async_handle_service].  Both branches run
    under the one [except] clause; [image_type] and [image_reference] are
    bound before anything in the branch can raise. *)
Definition extraction_step (service_call : ServiceCall)
    (service_data : gmap string value) (number_of_lights : nat) : M flow :=
  match service_data !! ATTR_URL with
  | Some image_reference =>
      let image_type := "URL" in
      let service_data := delete ATTR_URL service_data in
      try_except
        (url ← as_str image_reference;
         colors ← _async_extract_color_from_url
                    (sc_hass service_call) url number_of_lights;
         mret (Continue service_data (Some colors)))
        is_unidentified_image
        (bad_image image_type image_reference)
  | None =>
      match service_data !! ATTR_PATH with
      | Some image_reference =>
          let image_type := "file path" in
          let service_data := delete ATTR_PATH service_data in
          try_except
            (file_path ← as_str image_reference;
             colors ← async_add_executor_job
                        (_extract_color_from_path
                           (sc_hass service_call) file_path
                           number_of_lights);
             mret (Continue service_data (Some colors)))
            is_unidentified_image
            (bad_image image_type image_reference)
      | None => mret (Continue service_data None)
      end
  end.

(** [lights]: [service_data[ATTR_ENTITY_ID]] when [isinstance] finds it a
    list, and otherwise the one-element list holding it. *)
Definition lights_of (entity : value) : list value :=
  match entity with
  | VList l => VStr <$> l
  | v => [v]
  end.

(** The body of the [for] loop, over the pairs of [zip(lights, colors)].
    [hass] is not a local of the handler: it is read as a global. *)
Fixpoint dispatch (globals : gmap string pyobj)
    (service_data : gmap string value) (pairs : list (value * rgb))
  : M unit :=
  match pairs with
  | [] => mret ()
  | (entity_id, color) :: rest =>
      let data :=
        <[ATTR_RGB_COLOR := VRgb color]>
          (<[ATTR_ENTITY_ID := entity_id]> service_data) in
      hass ← load_global globals "hass";
      bus ← get_services hass;
      async_call bus LIGHT_DOMAIN LIGHT_SERVICE_TURN_ON data true;;
      dispatch globals service_data rest
  end.

(** [number_of_lights = len(service_data[ATTR_ENTITY_ID])] *)
Definition count_lights (service_data : gmap string value) : M nat :=
  entity ← getitem service_data ATTR_ENTITY_ID;
  len entity.

(** What follows the [try] statement. *)
Definition after_extraction (globals : gmap string pyobj) (fl : flow)
  : M unit :=
  match fl with
  | Returned => mret ()
  | Continue _ None => raise (UnboundLocalError "colors")
  | Continue service_data (Some colors) =>
      if truthy colors then
        entity ← getitem service_data ATTR_ENTITY_ID;
        let lights := lights_of entity in
        dispatch globals service_data (zip lights (default [] colors))
      else mret ()
  end.

(** The handler, run in a module whose globals are [globals]. *)
Definition handle_service_in (globals : gmap string pyobj)
    (service_call : ServiceCall) : M unit :=
  let service_data := sc_data service_call in
  number_of_lights ← count_lights service_data;
  fl ← extraction_step service_call service_data number_of_lights;
  after_extraction globals fl.

(** [async_handle_service], as [services.py] defines it. *)
Definition async_handle_service (service_call : ServiceCall) : M unit :=
  handle_service_in services_globals service_call.
End Services.

(** ** Reading a trace *)

(** The downstream calls a trace issues. *)
Definition turn_on_calls (t : list event) : list (gmap string value) :=
  omap (λ e, match e with
             | ServiceCallIssued _ _ data _ => Some data
             | _ => None
             end) t.

(** The error-level log records. *)
Definition error_logs (t : list event) : list (string * list logarg) :=
  omap (λ e, match e with
             | LogError fmt args => Some (fmt, args)
             | _ => None
             end) t.

(** How many colors each call to the extractor asks for: one for
    [get_color], [color_count] for [get_palette]. *)
Definition colors_requested (t : list event) : list nat :=
  omap (λ e, match e with
             | ThiefGetColor _ => Some 1%nat
             | ThiefGetPalette _ n => Some n
             | _ => None
             end) t.

Definition is_fetch (e : event) : bool :=
  match e with HttpGet _ _ | ContentRead => true | _ => false end.

Definition is_file_open (e : event) : bool :=
  match e with ImageOpen (FilePath _) => true | _ => false end.

Definition is_call (e : event) : bool :=
  match e with
  | ServiceCallIssued _ _ _ _ | ServiceCallCompleted _ _ _ => true
  | _ => false
  end.

(** ** [SERVICE_SCHEMA] and the registration of the service *)

(** A key of a voluptuous dictionary schema: its validator (which may
    coerce the value, or raise [vol.Invalid]), for a [vol.Exclusive] key its
    group of exclusion, and whether the key is a [vol.Remove] marker (the
    key is then left out of the validated data). *)
Record field : Type := {
  group : option string;
  check : value → result value;
  remove : bool;
}.

Definition is_ok {A} (r : result A) : bool :=
  match r with Ok _ => true | Raise _ => false end.

(** [cv.has_at_least_one_key] over the given keys *)
Definition has_at_least_one_key (keys : list string)
    (obj : gmap string value) : result (gmap string value) :=
  if bool_decide (Exists (λ k, is_Some (obj !! k)) keys) then Ok obj
  else Raise (Invalid "must contain at least one of the keys").

(** A key of the data is accepted by a dictionary schema when the schema
    has it and its validator takes the value. *)
Definition accepts (schema : gmap string field) (k : string) (v : value)
  : Prop :=
  ∃ f, schema !! k = Some f ∧ is_ok (check f v) = true.

#[export] Instance accepts_dec schema k v : Decision (accepts schema k v).
Proof.
  unfold accepts. destruct (schema !! k) as [f|] eqn:E.
  - destruct (is_ok (check f v)) eqn:E'.
    + left. eauto.
    + right. intros (f' & [= <-] & ?). congruence.
  - right. intros (f' & [=] & _).
Defined.

(** Two keys of the data clash when they are different keys of one group of
    exclusion. *)
Definition clash (schema : gmap string field) (k1 k2 : string) : Prop :=
  k1 ≠ k2 ∧ ∃ g, (group <$> schema !! k1) = Some (Some g)
               ∧ (group <$> schema !! k2) = Some (Some g).

#[export] Instance clash_dec schema k1 k2 : Decision (clash schema k1 k2).
Proof.
  unfold clash. destruct (decide (k1 = k2)) as [->|Hne].
  - right. intros [? _]. done.
  - destruct (group <$> schema !! k1) as [[g|]|] eqn:E1.
    + destruct (decide ((group <$> schema !! k2) = Some (Some g))) as [E2|E2].
      * left. eauto.
      * right. intros (_ & g' & [= <-] & ?). done.
    + right. intros (_ & g' & [=] & _).
    + right. intros (_ & g' & [=] & _).
Defined.

(** [vol.Schema(schema)(obj)] for a dictionary schema whose keys are all
    optional: no extra key (a [vol.Remove] key whose value fails its
    validator counts as one), every value valid, no two keys of one group of
    exclusion; the validated data hold the coerced values of the keys that
    are not marked for removal. *)
Definition validate_dict (schema : gmap string field)
    (obj : gmap string value) : result (gmap string value) :=
  if bool_decide (map_Forall (λ k v, accepts schema k v) obj) then
    if bool_decide (map_Forall (λ k1 _,
          map_Forall (λ k2 _, ¬ clash schema k1 k2) obj) obj)
    then
      Ok (map_imap (λ k v,
            match schema !! k with
            | Some f =>
                if remove f then None
                else match check f v with Ok v' => Some v' | _ => None end
            | None => None
            end) obj)
    else Raise (Invalid "two or more values in the same group of exclusion")
  else Raise (Invalid "extra keys not allowed or invalid value").

(** [vol.All(v1, v2)] *)
Definition vol_All {A} (v1 v2 : A → result A) (obj : A) : result A :=
  match v1 obj with
  | Ok obj' => v2 obj'
  | Raise e => Raise e
  end.

Section Schema.
(** The fields of [light.turn_on], the target fields every entity service
    takes ([entity_id], [device_id], [area_id], ...) and the validators
    [cv.isfile] and [cv.url], all from Home Assistant. *)
Variable LIGHT_TURN_ON_SCHEMA : gmap string field.
Variable ENTITY_SERVICE_FIELDS : gmap string field.
Variable cv_isfile cv_url : value → result value.

(** The validator [dict]: the value is a dictionary. *)
Definition cv_dict (v : value) : result value :=
  match v with
  | VDict _ => Ok v
  | _ => Raise (Invalid "expected dict")
  end.

(** [cv.make_entity_service_schema(schema)]: the dictionary made of
    [vol.Remove("metadata"): dict], of [schema] and of the target fields
    (a later entry replacing an earlier one), then at least one target
    field. *)
Definition make_entity_service_schema (schema : gmap string field)
  : gmap string value → result (gmap string value) :=
  vol_All (validate_dict
             (ENTITY_SERVICE_FIELDS ∪ schema
                ∪ {["metadata" := {| group := None; check := cv_dict;
                                     remove := true |}]}))
          (has_at_least_one_key (map_to_list ENTITY_SERVICE_FIELDS).*1).

(** The schema [light.turn_on] itself is registered with. *)
Definition light_turn_on_schema
  : gmap string value → result (gmap string value) :=
  make_entity_service_schema LIGHT_TURN_ON_SCHEMA.

Definition extended_schema : gmap string field :=
  <[ATTR_URL := {| group := Some "color_palette_extractor";
                   check := cv_url; remove := false |}]>
    (<[ATTR_PATH := {| group := Some "color_palette_extractor";
                       check := cv_isfile; remove := false |}]>
       LIGHT_TURN_ON_SCHEMA).

Definition SERVICE_SCHEMA
  : gmap string value → result (gmap string value) :=
  vol_All (has_at_least_one_key [ATTR_URL; ATTR_PATH])
          (make_entity_service_schema extended_schema).

Variable colorthief : ColorThiefLib.

(** A registered service: its handler and its schema. *)
Record service : Type := {
  handler : ServiceCall → M unit;
  schema : gmap string value → result (gmap string value);
}.

(** [async_setup_services]: what [hass.services.async_register] records. *)
Definition async_setup_services : gmap (string * string) service :=
  {[ (DOMAIN, SERVICE_TURN_ON) :=
       {| handler := async_handle_service colorthief;
          schema := SERVICE_SCHEMA |} ]}.

(** The host calling a registered service: the raw data goes through the
    schema first, and the handler runs on the validated data only. *)
Definition call_service (registry : gmap (string * string) service)
    (hass : HomeAssistant) (domain name : string)
    (raw : gmap string value) : M unit :=
  match registry !! (domain, name) with
  | None => raise (HomeAssistantError "service not found")
  | Some svc =>
      data ← lift (schema svc raw);
      handler svc {| sc_hass := hass; sc_data := data |}
  end.
End Schema.

(** ** Vocabulary of the statements *)

(** A computation performs no event of the class [P]. *)
Definition avoids {A} (P : event → bool) (m : M A) : Prop :=
  Forall (λ e, P e = false) (trace m).

Definition url_not_allowed_record (url : string) : event :=
  LogError
    "External URL '%s' is not allowed, please add to 'allowlist_external_urls'"
    [AStr url].

Definition path_not_allowed_record (file_path : string) : event :=
  LogError
    "File path '%s' is not allowed, please add to 'allowlist_external_dirs'"
    [AStr file_path].

Definition get_failed_record (err : exn) : event :=
  LogError "Failed to get ColorThief image due to HTTPError: %s" [AExn err].

Definition bad_image_record (image_type : string) (image_reference : value)
    (ex : exn) : event :=
  LogError "Bad image from %s '%s' provided, are you sure it's an image? %s"
    [AStr image_type; AVal image_reference; AExn ex].

(** The request's image has been acquired as [f]: either the URL is allowed,
    the GET has answered within its timeout and the body has been read, or
    (no URL being given) the path is allowed.  [before] is what the run
    performs up to that point, [key] the data key of the reference. *)
Inductive acquired (sc : ServiceCall)
  : string → string → value → file_handler → list event → Prop :=
  | acquired_url (url content : string) (resp : response) :
      sc_data sc !! ATTR_URL = Some (VStr url) →
      is_allowed_external_url (sc_hass sc) url = true →
      session_get (sc_hass sc) url 10 = Ok resp →
      content_read resp = Ok content →
      acquired sc ATTR_URL "URL" (VStr url)
        (BytesIO content "color_palette_extractor.jpg")
        [LogDebug "Getting predominant RGB from image URL '%s'" [AStr url];
         HttpGet url 10; ContentRead]
  | acquired_path (file_path : string) :
      sc_data sc !! ATTR_URL = None →
      sc_data sc !! ATTR_PATH = Some (VStr file_path) →
      is_allowed_path (sc_hass sc) file_path = true →
      acquired sc ATTR_PATH "file path" (VStr file_path) (FilePath file_path)
        [ExecutorJob;
         LogDebug "Getting predominant RGB from file path '%s'"
           [AStr file_path]].

(** What [_get_color] returns on an image that decodes. *)
Definition extracted (colorthief : ColorThiefLib) (f : file_handler)
    (light_count : nat) : list rgb :=
  if decide (light_count = 1%nat) then [thief_get_color colorthief f 1]
  else thief_get_palette colorthief f 1 light_count.

(** What [_get_color] performs on an image that decodes. *)
Definition extraction_events (colorthief : ColorThiefLib) (f : file_handler)
    (light_count : nat) : list event :=
  [ImageOpen f;
   if decide (light_count = 1%nat) then ThiefGetColor 1
   else ThiefGetPalette 1 light_count;
   LogDebug "get_palette response: %s"
     [AColors (extracted colorthief f light_count)];
   LogDebug "Extracted %d RGB colors from image"
     [ANat (length (extracted colorthief f light_count))]].

(** The data of the downstream call for one (entity id, color) pair. *)
Definition call_data (service_data : gmap string value)
    (pair : value * rgb) : gmap string value :=
  <[ATTR_RGB_COLOR := VRgb pair.2]>
    (<[ATTR_ENTITY_ID := pair.1]> service_data).

(** Every event a computation performs satisfies [Q]. *)
Definition always {A} (Q : event → Prop) (m : M A) : Prop :=
  Forall Q (trace m).

Definition is_executor_job (e : event) : bool :=
  match e with ExecutorJob => true | _ => false end.

Definition is_extractor_call (e : event) : bool :=
  match e with ThiefGetColor _ | ThiefGetPalette _ _ => true | _ => false end.

(** The two events of one awaited [light.turn_on] call. *)
Definition call_events (service_data : gmap string value)
    (pair : value * rgb) : list event :=
  [ServiceCallIssued LIGHT_DOMAIN LIGHT_SERVICE_TURN_ON
     (call_data service_data pair) true;
   ServiceCallCompleted LIGHT_DOMAIN LIGHT_SERVICE_TURN_ON
     (call_data service_data pair)].

(** The data key of the reference the handler pops: the URL when there is
    one, the path otherwise. *)
Definition popped_key (service_data : gmap string value) : string :=
  if service_data !! ATTR_URL is Some _ then ATTR_URL else ATTR_PATH.

(** The globals [services.py] would have with a global [hass] bound to the
    host (upstream, the handler is a closure over the [hass] argument of
    [async_setup_services]). *)
Definition globals_with_hass (h : HomeAssistant) : gmap string pyobj :=
  <["hass" := PyHass h]> services_globals.

(** ** Sample requests *)

Module Sample.

(** A library that decodes everything and knows a two-color palette. *)
Definition thief : ColorThiefLib :=
  {| thief_open := λ _, Ok ();
     thief_get_color := λ _ _, (10, 20, 30)%Z;
     thief_get_palette := λ _ _ n, take n [(10, 20, 30); (40, 50, 60)]%Z |}.

(** A library that decodes everything and finds no color. *)
Definition empty_thief : ColorThiefLib :=
  {| thief_open := λ _, Ok ();
     thief_get_color := λ _ _, (0, 0, 0)%Z;
     thief_get_palette := λ _ _ _, [] |}.

(** A library that recognizes no image. *)
Definition blind_thief : ColorThiefLib :=
  {| thief_open := λ _, Raise (UnidentifiedImageError "cannot identify image file");
     thief_get_color := λ _ _, (0, 0, 0)%Z;
     thief_get_palette := λ _ _ _, [] |}.

(** A host that allows every reference, answers every GET with a body that
    reads well, and completes every service call. *)
Definition open_hass : HomeAssistant :=
  {| is_allowed_external_url := λ _, true;
     is_allowed_path := λ _, true;
     session_get := λ _ _, Ok {| content_read := Ok "JFIF" |};
     services_async_call := λ _ _ _ _, Ok () |}.

(** A host whose allowlists are empty. *)
Definition closed_hass : HomeAssistant :=
  {| is_allowed_external_url := λ _, false;
     is_allowed_path := λ _, false;
     session_get := λ _ _, Ok {| content_read := Ok "JFIF" |};
     services_async_call := λ _ _ _ _, Ok () |}.

(** A host whose GETs run into the timeout. *)
Definition slow_hass : HomeAssistant :=
  {| is_allowed_external_url := λ _, true;
     is_allowed_path := λ _, true;
     session_get := λ _ _, Raise TimeoutError;
     services_async_call := λ _ _ _ _, Ok () |}.

(** A host whose GETs answer, the connection then breaking while the body
    is read. *)
Definition broken_body_hass : HomeAssistant :=
  {| is_allowed_external_url := λ _, true;
     is_allowed_path := λ _, true;
     session_get := λ _ _,
       Ok {| content_read :=
               Raise (ClientError "Response payload is not completed") |};
     services_async_call := λ _ _ _ _, Ok () |}.

Definition url_request (entity : value) : gmap string value :=
  <[ATTR_ENTITY_ID := entity]>
    (<["brightness" := VInt 120]>
       {[ATTR_URL := VStr "https://example.com/cover.jpg"]}).

Definition path_request (entity : value) : gmap string value :=
  <[ATTR_ENTITY_ID := entity]>
    {[ATTR_PATH := VStr "/config/www/cover.jpg"]}.

Definition three_lights : value := VList ["light.a"; "light.b"; "light.c"].

Definition two_lights_call : ServiceCall :=
  {| sc_hass := open_hass;
     sc_data := url_request (VList ["light.a"; "light.b"]) |}.

Definition three_lights_call : ServiceCall :=
  {| sc_hass := open_hass; sc_data := url_request three_lights |}.

(** One target entity, given as a string. *)
Definition string_entity_call : ServiceCall :=
  {| sc_hass := open_hass; sc_data := url_request (VStr "light.a") |}.

(** One target entity, given as a one-element list. *)
Definition one_light_call : ServiceCall :=
  {| sc_hass := open_hass; sc_data := url_request (VList ["light.a"]) |}.

Definition broken_body_call : ServiceCall :=
  {| sc_hass := broken_body_hass;
     sc_data := url_request (VList ["light.a"]) |}.

Definition slow_call : ServiceCall :=
  {| sc_hass := slow_hass; sc_data := url_request (VList ["light.a"]) |}.

Definition refused_url_call : ServiceCall :=
  {| sc_hass := closed_hass; sc_data := url_request (VList ["light.a"]) |}.

Definition refused_path_call : ServiceCall :=
  {| sc_hass := closed_hass; sc_data := path_request (VList ["light.a"]) |}.

Definition path_call : ServiceCall :=
  {| sc_hass := open_hass; sc_data := path_request (VList ["light.a"]) |}.

Definition at_most (top : Z) (v : value) : result value :=
  match v with
  | VInt n =>
      if bool_decide (0 ≤ n ≤ top)%Z then Ok v
      else Raise (Invalid "value out of range")
  | _ => Raise (Invalid "expected int")
  end.

(** A cut-down [light.turn_on] schema, with the two exclusive ways of
    giving a brightness, and the entity target field. *)
Definition light_fields : gmap string field :=
  <["brightness" := {| group := Some "brightness"; check := at_most 255;
                       remove := false |}]>
    {["brightness_pct" := {| group := Some "brightness";
                             check := at_most 100; remove := false |}]}.

Definition entity_fields : gmap string field :=
  {[ ATTR_ENTITY_ID := {| group := None; check := Ok; remove := false |} ]}.

(** A target field whose validator turns a single entity id into the list
    holding it. *)
Definition listing_entity_fields : gmap string field :=
  {[ ATTR_ENTITY_ID :=
       {| group := None;
          check := λ v, match v with VStr s => Ok (VList [s]) | _ => Ok v end;
          remove := false |} ]}.

(** Two brightnesses at once, which [light.turn_on] refuses. *)
Definition two_brightnesses : gmap string value :=
  <["brightness_pct" := VInt 50]> (url_request (VList ["light.a"])).

(** A request that carries the frontend's [metadata]. *)
Definition with_metadata : gmap string value :=
  <["metadata" := VDict ∅]> (url_request (VList ["light.a"])).

Definition schema : gmap string value → result (gmap string value) :=
  SERVICE_SCHEMA light_fields entity_fields Ok Ok.

Definition both_references : gmap string value :=
  <[ATTR_PATH := VStr "/config/www/cover.jpg"]>
    (url_request (VList ["light.a"])).

Definition no_reference : gmap string value :=
  <[ATTR_ENTITY_ID := VList ["light.a"]]> {["brightness" := VInt 120]}.

(** The pass-through data of [url_request], the reference popped. *)
Definition passed_on (entity : value) (color : rgb) : gmap string value :=
  <[ATTR_RGB_COLOR := VRgb color]>
    (<[ATTR_ENTITY_ID := entity]> {["brightness" := VInt 120]}).

(** A host whose service bus fails on [light.b]. *)
Definition failing_bus_hass : HomeAssistant :=
  {| is_allowed_external_url := λ _, true;
     is_allowed_path := λ _, true;
     session_get := λ _ _, Ok {| content_read := Ok "JFIF" |};
     services_async_call := λ _ _ data _,
       match data !! ATTR_ENTITY_ID with
       | Some (VStr s) =>
           if bool_decide (s = "light.b")
           then Raise (HomeAssistantError "light.b is unavailable")
           else Ok ()
       | _ => Ok ()
       end |}.

(** A host whose GETs fail with an error that is neither a timeout nor a
    client error. *)
Definition odd_get_hass : HomeAssistant :=
  {| is_allowed_external_url := λ _, true;
     is_allowed_path := λ _, true;
     session_get := λ _ _, Raise (TypeError "URL must be a string");
     services_async_call := λ _ _ _ _, Ok () |}.

(** A library whose image open fails with another error. *)
Definition failing_thief : ColorThiefLib :=
  {| thief_open := λ _, Raise (TypeError "cannot read the file");
     thief_get_color := λ _ _, (0, 0, 0)%Z;
     thief_get_palette := λ _ _ _, [] |}.

Definition failing_bus_call : ServiceCall :=
  {| sc_hass := failing_bus_hass; sc_data := url_request three_lights |}.

Definition odd_get_call : ServiceCall :=
  {| sc_hass := odd_get_hass; sc_data := url_request (VList ["light.a"]) |}.

(** Data with no [entity_id] (the target given as an area). *)
Definition area_call : ServiceCall :=
  {| sc_hass := open_hass;
     sc_data := <["area_id" := VStr "kitchen"]>
                  {[ATTR_URL := VStr "https://example.com/cover.jpg"]} |}.

(** Data with neither reference, handed to the handler directly. *)
Definition no_reference_call : ServiceCall :=
  {| sc_hass := open_hass; sc_data := no_reference |}.

(** Data with both references, handed to the handler directly. *)
Definition both_references_call : ServiceCall :=
  {| sc_hass := open_hass; sc_data := both_references |}.

End Sample.

(** * Properties *)

(** ** The monad *)

Lemma bind_ok {A B} (t : list event) (a : A) (f : A → M B) :
  ((t, Ok a) ≫= f) = (t ++ trace (f a), outcome (f a)).
Proof. unfold mbind, M_bind, trace, outcome. by destruct (f a). Qed.

Lemma ret_bind {A B} (a : A) (f : A → M B) : (mret a ≫= f) = f a.
Proof. unfold mret, M_ret, mbind, M_bind. by destruct (f a). Qed.

Lemma bind_raise {A B} (t : list event) (e : exn) (f : A → M B) :
  ((t, Raise e) ≫= f) = (t, Raise e).
Proof. done. Qed.

Lemma trace_bind {A B} (m : M A) (f : A → M B) :
  trace (m ≫= f) =
  trace m ++ match outcome m with Ok a => trace (f a) | Raise _ => [] end.
Proof.
  destruct m as [t [a|e]].
  - by rewrite bind_ok.
  - simpl. by rewrite app_nil_r.
Qed.

Lemma trace_try_except {A} (m : M A) catches (h : exn → M A) :
  trace (try_except m catches h) =
  trace m ++ match outcome m with
             | Raise e => if catches e then trace (h e) else []
             | Ok _ => []
             end.
Proof.
  destruct m as [t [a|e]]; simpl.
  - by rewrite app_nil_r.
  - destruct (catches e); simpl.
    + by destruct (h e).
    + by rewrite app_nil_r.
Qed.

(** ** Computations that perform no event of a given class *)

Section Avoids.
Context (P : event → bool).

Lemma avoids_ret {A} (a : A) : avoids P (mret a).
Proof. constructor. Qed.

Lemma avoids_raise {A} (e : exn) : avoids P (raise e : M A).
Proof. constructor. Qed.

Lemma avoids_lift {A} (r : result A) : avoids P (lift r).
Proof. constructor. Qed.

Lemma avoids_emit (e : event) : P e = false → avoids P (emit e).
Proof. intros H. by repeat constructor. Qed.

Lemma avoids_bind {A B} (m : M A) (f : A → M B) :
  avoids P m → (∀ a, avoids P (f a)) → avoids P (m ≫= f).
Proof.
  unfold avoids. intros Hm Hf. rewrite trace_bind.
  apply Forall_app. split; [done|].
  destruct (outcome m); [apply Hf | constructor].
Qed.

Lemma avoids_try_except {A} (m : M A) catches (h : exn → M A) :
  avoids P m → (∀ e, avoids P (h e)) → avoids P (try_except m catches h).
Proof.
  unfold avoids. intros Hm Hh. rewrite trace_try_except.
  apply Forall_app. split; [done|].
  destruct (outcome m) as [a|e]; [constructor|].
  destruct (catches e); [apply Hh | constructor].
Qed.
End Avoids.

Create HintDb avoids.

Ltac avoids_step :=
  first
    [ solve [auto with avoids nocore]
    | apply avoids_ret | apply avoids_raise | apply avoids_lift
    | apply avoids_emit; reflexivity
    | apply avoids_try_except; [| intros ?]
    | apply avoids_bind; [| intros ?] ].

Lemma turn_on_calls_avoids {A} (m : M A) :
  avoids is_call m → turn_on_calls (trace m) = [].
Proof.
  unfold avoids. induction 1 as [|e t He _ IH]; [done|].
  destruct e; try discriminate He; exact IH.
Qed.

Lemma filter_avoids {A} (P : event → bool) (m : M A) :
  avoids P m → filter (λ e, P e = true) (trace m) = [].
Proof.
  unfold avoids. induction 1 as [|e t He _ IH]; [done|].
  rewrite filter_cons_False; [done | congruence].
Qed.

(** ** The extraction functions issue no downstream call *)

Section Quiet.
Context (colorthief : ColorThiefLib).

Lemma _get_color_no_call f n : avoids is_call (_get_color colorthief f n).
Proof.
  unfold _get_color. repeat avoids_step.
  destruct (decide _); repeat avoids_step.
Qed.

Lemma _get_color_no_fetch f n : avoids is_fetch (_get_color colorthief f n).
Proof.
  unfold _get_color. repeat avoids_step.
  destruct (decide _); repeat avoids_step.
Qed.
Hint Resolve _get_color_no_call _get_color_no_fetch : avoids.

Lemma url_no_call hass url n :
  avoids is_call (_async_extract_color_from_url colorthief hass url n).
Proof.
  unfold _async_extract_color_from_url.
  destruct (negb _); repeat avoids_step.
  match goal with |- context [match ?x with Some _ => _ | None => _ end] =>
    destruct x end; repeat avoids_step.
Qed.

Lemma url_no_file_open hass url n :
  avoids is_file_open (_async_extract_color_from_url colorthief hass url n).
Proof.
  unfold _async_extract_color_from_url.
  destruct (negb _); repeat avoids_step.
  match goal with |- context [match ?x with Some _ => _ | None => _ end] =>
    destruct x end; repeat avoids_step.
  unfold _get_color. repeat avoids_step.
  destruct (decide _); repeat avoids_step.
Qed.

Lemma path_no_call hass p n :
  avoids is_call (_extract_color_from_path colorthief hass p n).
Proof.
  unfold _extract_color_from_path.
  destruct (negb _); repeat avoids_step.
Qed.

Lemma path_no_fetch hass p n :
  avoids is_fetch (_extract_color_from_path colorthief hass p n).
Proof.
  unfold _extract_color_from_path.
  destruct (negb _); repeat avoids_step.
Qed.

Lemma as_str_avoids P v : avoids P (as_str v).
Proof. destruct v; constructor. Qed.
Hint Resolve url_no_call url_no_file_open path_no_call path_no_fetch
  as_str_avoids : avoids.

Lemma extraction_step_no_call sc sd n :
  avoids is_call (extraction_step colorthief sc sd n).
Proof.
  unfold extraction_step, bad_image, async_add_executor_job.
  destruct (sd !! ATTR_URL); [|destruct (sd !! ATTR_PATH)];
    repeat avoids_step.
Qed.

Lemma count_lights_avoids P sd : avoids P (count_lights sd).
Proof.
  unfold count_lights, getitem.
  destruct (sd !! ATTR_ENTITY_ID) as [[]|]; constructor.
Qed.

Lemma count_lights_trace sd : trace (count_lights sd) = [].
Proof.
  unfold count_lights, getitem.
  by destruct (sd !! ATTR_ENTITY_ID) as [[]|].
Qed.
End Quiet.
#[export] Hint Resolve _get_color_no_call _get_color_no_fetch url_no_call
  url_no_file_open path_no_call path_no_fetch as_str_avoids
  extraction_step_no_call count_lights_avoids : avoids.

(** ** Requests stopped by the allowlists *)

Lemma handle_service_in_unfold colorthief globals sc n :
  count_lights (sc_data sc) = ([], Ok n) →
  handle_service_in colorthief globals sc =
  (extraction_step colorthief sc (sc_data sc) n ≫= after_extraction globals).
Proof.
  intros Hn. unfold handle_service_in. rewrite Hn, bind_ok. simpl.
  by destruct (_ ≫= _).
Qed.

Lemma handle_service_in_no_count colorthief globals sc e :
  outcome (count_lights (sc_data sc)) = Raise e →
  handle_service_in colorthief globals sc = ([], Raise e).
Proof.
  intros He. unfold handle_service_in.
  pose proof (count_lights_trace (sc_data sc)) as Ht.
  destruct (count_lights (sc_data sc)) as [t r]. simpl in *. by subst.
Qed.

Lemma count_lights_cases sd :
  (∃ n, count_lights sd = ([], Ok n)) ∨ (∃ e, count_lights sd = ([], Raise e)).
Proof.
  pose proof (count_lights_trace sd) as Ht.
  destruct (count_lights sd) as [t [n|e]]; simpl in *; subst; eauto.
Qed.

Lemma extraction_step_url_disallowed colorthief sc url n :
  sc_data sc !! ATTR_URL = Some (VStr url) →
  is_allowed_external_url (sc_hass sc) url = false →
  extraction_step colorthief sc (sc_data sc) n =
  ([url_not_allowed_record url],
   Ok (Continue (delete ATTR_URL (sc_data sc)) (Some None))).
Proof.
  intros Hurl Hno. unfold extraction_step. rewrite Hurl. simpl.
  unfold _async_extract_color_from_url. by rewrite Hno.
Qed.

Lemma extraction_step_path_disallowed colorthief sc file_path n :
  sc_data sc !! ATTR_URL = None →
  sc_data sc !! ATTR_PATH = Some (VStr file_path) →
  is_allowed_path (sc_hass sc) file_path = false →
  extraction_step colorthief sc (sc_data sc) n =
  ([ExecutorJob; path_not_allowed_record file_path],
   Ok (Continue (delete ATTR_PATH (sc_data sc)) (Some None))).
Proof.
  intros Hurl Hpath Hno. unfold extraction_step. rewrite Hurl, Hpath. simpl.
  unfold _extract_color_from_path. by rewrite Hno.
Qed.

(** C4.  A URL request whose URL the external-URL allowlist refuses: the
    acquisition step logs one error and returns [None] without raising, the
    handler performs no fetch and issues no downstream call, and (the entity
    ids being countable) its whole run is that one error record followed by
    a normal return. *)
Theorem C4_disallowed_url_never_fetched
    (colorthief : ColorThiefLib) (service_call : ServiceCall) (url : string) :
  sc_data service_call !! ATTR_URL = Some (VStr url) →
  is_allowed_external_url (sc_hass service_call) url = false →
  (∀ n, _async_extract_color_from_url colorthief (sc_hass service_call) url n
        = ([url_not_allowed_record url], Ok None)) ∧
  filter (λ e, is_fetch e = true)
    (trace (async_handle_service colorthief service_call)) = [] ∧
  turn_on_calls (trace (async_handle_service colorthief service_call)) = [] ∧
  (∀ n, count_lights (sc_data service_call) = ([], Ok n) →
        async_handle_service colorthief service_call
        = ([url_not_allowed_record url], Ok ())).
Proof.
  intros Hurl Hno.
  assert (Hrun : ∀ n, count_lights (sc_data service_call) = ([], Ok n) →
                 async_handle_service colorthief service_call
                 = ([url_not_allowed_record url], Ok ())).
  { intros n Hn. unfold async_handle_service.
    rewrite (handle_service_in_unfold _ _ _ n Hn).
    by rewrite (extraction_step_url_disallowed _ _ url n Hurl Hno). }
  split; [|split; [|split]]; [| | |exact Hrun].
  - intros n. unfold _async_extract_color_from_url. by rewrite Hno.
  - destruct (count_lights_cases (sc_data service_call)) as [[n Hn]|[e He]].
    + by rewrite (Hrun n Hn).
    + unfold async_handle_service.
      rewrite (handle_service_in_no_count _ _ _ e); [done | by rewrite He].
  - destruct (count_lights_cases (sc_data service_call)) as [[n Hn]|[e He]].
    + by rewrite (Hrun n Hn).
    + unfold async_handle_service.
      rewrite (handle_service_in_no_count _ _ _ e); [done | by rewrite He].
Qed.

(** C5.  A path request (no URL in the data) whose path the allowed-
    directories check refuses: the acquisition step logs one error and
    returns [None], the handler opens no local file and issues no downstream
    call, and (the entity ids being countable) it returns normally. *)
Theorem C5_disallowed_path_never_opened
    (colorthief : ColorThiefLib) (service_call : ServiceCall)
    (file_path : string) :
  sc_data service_call !! ATTR_URL = None →
  sc_data service_call !! ATTR_PATH = Some (VStr file_path) →
  is_allowed_path (sc_hass service_call) file_path = false →
  (∀ n, _extract_color_from_path colorthief (sc_hass service_call) file_path n
        = ([path_not_allowed_record file_path], Ok None)) ∧
  filter (λ e, is_file_open e = true)
    (trace (async_handle_service colorthief service_call)) = [] ∧
  turn_on_calls (trace (async_handle_service colorthief service_call)) = [] ∧
  (∀ n, count_lights (sc_data service_call) = ([], Ok n) →
        async_handle_service colorthief service_call
        = ([ExecutorJob; path_not_allowed_record file_path], Ok ())).
Proof.
  intros Hurl Hpath Hno.
  assert (Hrun : ∀ n, count_lights (sc_data service_call) = ([], Ok n) →
                 async_handle_service colorthief service_call
                 = ([ExecutorJob; path_not_allowed_record file_path], Ok ())).
  { intros n Hn. unfold async_handle_service.
    rewrite (handle_service_in_unfold _ _ _ n Hn).
    by rewrite (extraction_step_path_disallowed _ _ file_path n Hurl Hpath Hno). }
  split; [|split; [|split]]; [| | |exact Hrun].
  - intros n. unfold _extract_color_from_path. by rewrite Hno.
  - destruct (count_lights_cases (sc_data service_call)) as [[n Hn]|[e He]].
    + by rewrite (Hrun n Hn).
    + unfold async_handle_service.
      rewrite (handle_service_in_no_count _ _ _ e); [done | by rewrite He].
  - destruct (count_lights_cases (sc_data service_call)) as [[n Hn]|[e He]].
    + by rewrite (Hrun n Hn).
    + unfold async_handle_service.
      rewrite (handle_service_in_no_count _ _ _ e); [done | by rewrite He].
Qed.

(** ** The extraction step on an acquired image *)

Lemma _get_color_decodes colorthief f n :
  thief_open colorthief f = Ok () →
  _get_color colorthief f n
  = (extraction_events colorthief f n, Ok (extracted colorthief f n)).
Proof.
  intros Hopen. unfold _get_color, extraction_events, extracted.
  rewrite Hopen. by destruct (decide (n = 1%nat)).
Qed.

Lemma _get_color_raises colorthief f n e :
  thief_open colorthief f = Raise e →
  _get_color colorthief f n = ([ImageOpen f], Raise e).
Proof. intros Hopen. unfold _get_color. by rewrite Hopen. Qed.

Lemma extraction_step_decodes colorthief sc key ty ref f before n :
  acquired sc key ty ref f before →
  thief_open colorthief f = Ok () →
  extraction_step colorthief sc (sc_data sc) n
  = (before ++ extraction_events colorthief f n,
     Ok (Continue (delete key (sc_data sc))
                  (Some (Some (extracted colorthief f n))))).
Proof.
  intros Hacq Hopen. unfold extraction_step.
  destruct Hacq as [url content resp Hurl Hok Hget Hread | p Hurl Hpath Hok].
  - rewrite Hurl. simpl. unfold _async_extract_color_from_url.
    rewrite Hok, Hget. simpl. rewrite Hread.
    by rewrite (_get_color_decodes _ _ _ Hopen).
  - rewrite Hurl, Hpath. simpl. unfold _extract_color_from_path, _get_file.
    rewrite Hok. simpl.
    by rewrite (_get_color_decodes _ _ _ Hopen).
Qed.

Lemma extraction_step_bad_image colorthief sc key ty ref f before n msg :
  acquired sc key ty ref f before →
  thief_open colorthief f = Raise (UnidentifiedImageError msg) →
  extraction_step colorthief sc (sc_data sc) n
  = (before ++ [ImageOpen f;
                bad_image_record ty ref (UnidentifiedImageError msg)],
     Ok Returned).
Proof.
  intros Hacq Hopen. unfold extraction_step.
  destruct Hacq as [url content resp Hurl Hok Hget Hread | p Hurl Hpath Hok].
  - rewrite Hurl. simpl. unfold _async_extract_color_from_url.
    rewrite Hok, Hget. simpl. rewrite Hread.
    by rewrite (_get_color_raises _ _ _ _ Hopen).
  - rewrite Hurl, Hpath. simpl. unfold _extract_color_from_path, _get_file.
    rewrite Hok. simpl.
    by rewrite (_get_color_raises _ _ _ _ Hopen).
Qed.

Lemma turn_on_calls_app t1 t2 :
  turn_on_calls (t1 ++ t2) = turn_on_calls t1 ++ turn_on_calls t2.
Proof.
  induction t1 as [|e t1 IH]; [done|].
  simpl. destruct e; simpl; by rewrite ?IH.
Qed.

Lemma error_logs_app t1 t2 :
  error_logs (t1 ++ t2) = error_logs t1 ++ error_logs t2.
Proof.
  induction t1 as [|e t1 IH]; [done|].
  simpl. destruct e; simpl; by rewrite ?IH.
Qed.

Lemma acquired_before sc key ty ref f before :
  acquired sc key ty ref f before →
  turn_on_calls before = [] ∧ error_logs before = [].
Proof. by destruct 1. Qed.

(** C7.  A request whose image has been acquired but does not decode: the
    handler catches the [UnidentifiedImageError], logs exactly one error
    (naming the kind of source, the reference and the message), issues no
    downstream call and returns normally. *)
Theorem C7_bad_image_aborts_quietly
    (colorthief : ColorThiefLib) (service_call : ServiceCall)
    (key image_type msg : string) (image_reference : value)
    (f : file_handler) (before : list event) (n : nat) :
  acquired service_call key image_type image_reference f before →
  thief_open colorthief f = Raise (UnidentifiedImageError msg) →
  count_lights (sc_data service_call) = ([], Ok n) →
  outcome (async_handle_service colorthief service_call) = Ok () ∧
  error_logs (trace (async_handle_service colorthief service_call))
  = [("Bad image from %s '%s' provided, are you sure it's an image? %s",
      [AStr image_type; AVal image_reference;
       AExn (UnidentifiedImageError msg)])] ∧
  turn_on_calls (trace (async_handle_service colorthief service_call)) = [].
Proof.
  intros Hacq Hopen Hn. unfold async_handle_service.
  rewrite (handle_service_in_unfold _ _ _ n Hn).
  rewrite (extraction_step_bad_image _ _ _ _ _ _ _ _ _ Hacq Hopen).
  rewrite bind_ok. simpl. rewrite app_nil_r.
  destruct (acquired_before _ _ _ _ _ _ Hacq) as [Hc He].
  rewrite turn_on_calls_app, error_logs_app, Hc, He. done.
Qed.

(** ** Outcomes of composite computations *)

Lemma outcome_bind {A B} (m : M A) (f : A → M B) :
  outcome (m ≫= f) =
  match outcome m with Ok a => outcome (f a) | Raise e => Raise e end.
Proof.
  destruct m as [t [a|e]]; [|done]. by rewrite bind_ok.
Qed.

Lemma bind_outcome_ok {A B} (m : M A) (f : A → M B) (b : B) :
  outcome (m ≫= f) = Ok b → ∃ a, outcome m = Ok a ∧ outcome (f a) = Ok b.
Proof.
  rewrite outcome_bind. destruct (outcome m) as [a|e]; [eauto | done].
Qed.

Lemma try_except_outcome_ok {A} (m : M A) catches (h : exn → M A) (a : A) :
  outcome (try_except m catches h) = Ok a →
  outcome m = Ok a ∨ ∃ e, outcome (h e) = Ok a.
Proof.
  destruct m as [t [a'|e]]; simpl; [by left|].
  destruct (catches e); [|done].
  intros H. right. exists e. by destruct (h e).
Qed.

Lemma extraction_step_data colorthief sc d n sd colors :
  outcome (extraction_step colorthief sc d n) = Ok (Continue sd colors) →
  sd !! ATTR_ENTITY_ID = d !! ATTR_ENTITY_ID.
Proof.
  unfold extraction_step.
  destruct (d !! ATTR_URL) as [ref|]; [|destruct (d !! ATTR_PATH) as [ref|]].
  - intros [H|[e H]]%try_except_outcome_ok; [|done].
    apply bind_outcome_ok in H as (url & _ & H).
    apply bind_outcome_ok in H as (cs & _ & H).
    injection H as <- _. by rewrite lookup_delete_ne.
  - intros [H|[e H]]%try_except_outcome_ok; [|done].
    apply bind_outcome_ok in H as (p & _ & H).
    apply bind_outcome_ok in H as (cs & _ & H).
    injection H as <- _. by rewrite lookup_delete_ne.
  - by intros [= <- _].
Qed.

(** ** The dispatch loop *)

Lemma services_globals_hass : services_globals !! "hass" = None.
Proof. by vm_compute. Qed.

(** With no global [hass], the first pair already raises. *)
Lemma dispatch_unbound globals sd p ps :
  globals !! "hass" = None →
  dispatch globals sd (p :: ps) = ([], Raise (NameError "hass")).
Proof.
  intros Hg. destruct p as [entity_id color]. simpl.
  unfold load_global. by rewrite Hg.
Qed.

(** Had the module a global [hass] bound to the host, the loop would call
    [light.turn_on] once per pair, in order, each call completed before the
    next is issued. *)
Lemma dispatch_bound globals h sd pairs :
  globals !! "hass" = Some (PyHass h) →
  Forall (λ p, services_async_call h LIGHT_DOMAIN LIGHT_SERVICE_TURN_ON
                 (call_data sd p) true = Ok ()) pairs →
  dispatch globals sd pairs
  = (pairs ≫= (λ p,
       [ServiceCallIssued LIGHT_DOMAIN LIGHT_SERVICE_TURN_ON
          (call_data sd p) true;
        ServiceCallCompleted LIGHT_DOMAIN LIGHT_SERVICE_TURN_ON
          (call_data sd p)]),
     Ok ()).
Proof.
  intros Hg. induction 1 as [|[entity_id color] ps Hp _ IH]; [done|].
  simpl. unfold load_global. rewrite Hg. simpl.
  unfold async_call, call_data in *. simpl in *. rewrite Hp. simpl.
  by rewrite IH.
Qed.

Lemma dispatch_calls_le globals sd pairs :
  (length (turn_on_calls (trace (dispatch globals sd pairs))) ≤ length pairs)%nat.
Proof.
  induction pairs as [|[entity_id color] ps IH]; [done|].
  simpl. unfold load_global.
  destruct (globals !! "hass") as [[h| | | | |]|]; simpl; try lia.
  unfold async_call.
  destruct (services_async_call h _ _ _ _) as [[]|e]; simpl; [|lia].
  destruct (dispatch globals sd ps) as [t r]. simpl in *. lia.
Qed.


(** ** Failures of the fetch *)

(** C6, for the failures of the GET.  A URL request whose GET raises
    [TimeoutError] (the 10-second timeout) or an aiohttp [ClientError]: the
    acquisition step logs the error and returns [None] without raising, and
    the handler returns normally having issued no downstream call. *)
Theorem C6_get_failure_is_no_result
    (colorthief : ColorThiefLib) (service_call : ServiceCall)
    (url : string) (err : exn) (n : nat) :
  sc_data service_call !! ATTR_URL = Some (VStr url) →
  is_allowed_external_url (sc_hass service_call) url = true →
  session_get (sc_hass service_call) url 10 = Raise err →
  err = TimeoutError ∨ (∃ msg, err = ClientError msg) →
  count_lights (sc_data service_call) = ([], Ok n) →
  _async_extract_color_from_url colorthief (sc_hass service_call) url n
  = ([LogDebug "Getting predominant RGB from image URL '%s'" [AStr url];
      HttpGet url 10; get_failed_record err], Ok None) ∧
  async_handle_service colorthief service_call
  = ([LogDebug "Getting predominant RGB from image URL '%s'" [AStr url];
      HttpGet url 10; get_failed_record err], Ok ()) ∧
  turn_on_calls (trace (async_handle_service colorthief service_call)) = [].
Proof.
  intros Hurl Hok Hget Herr Hn.
  assert (Hcatch : is_http_error err = true).
  { destruct Herr as [->|[msg ->]]; done. }
  assert (Hacq :
    _async_extract_color_from_url colorthief (sc_hass service_call) url n
    = ([LogDebug "Getting predominant RGB from image URL '%s'" [AStr url];
        HttpGet url 10; get_failed_record err], Ok None)).
  { unfold _async_extract_color_from_url. rewrite Hok, Hget. simpl.
    by rewrite Hcatch. }
  assert (Hrun :
    async_handle_service colorthief service_call
    = ([LogDebug "Getting predominant RGB from image URL '%s'" [AStr url];
        HttpGet url 10; get_failed_record err], Ok ())).
  { unfold async_handle_service.
    rewrite (handle_service_in_unfold _ _ _ n Hn).
    unfold extraction_step. rewrite Hurl. simpl. by rewrite Hacq. }
  by rewrite Hrun.
Qed.

(** C6 does not hold of every network failure.  Here the GET answers and
    the connection breaks while the body is read: the [ClientError] is raised
    after the [try], nothing is logged and the exception reaches the caller
    of the handler. *)
Lemma C6_body_read_failure_reaches_caller :
  outcome (async_handle_service Sample.thief Sample.broken_body_call)
  = Raise (ClientError "Response payload is not completed") ∧
  error_logs (trace (async_handle_service Sample.thief
                       Sample.broken_body_call)) = [] ∧
  trace (_async_extract_color_from_url Sample.thief Sample.broken_body_hass
           "https://example.com/cover.jpg" 1)
  = [LogDebug "Getting predominant RGB from image URL '%s'"
       [AStr "https://example.com/cover.jpg"];
     HttpGet "https://example.com/cover.jpg" 10; ContentRead] ∧
  outcome (_async_extract_color_from_url Sample.thief Sample.broken_body_hass
             "https://example.com/cover.jpg" 1)
  = Raise (ClientError "Response payload is not completed").
Proof. by vm_compute. Qed.

(** ** No result, no dispatch *)

(** C9.  When the extraction step hands over [None] or an empty list of
    colors, the truthiness test fails, the loop is not entered: the handler
    returns normally right after the extraction step, with no downstream
    call issued. *)
Theorem C9_no_colors_no_dispatch
    (colorthief : ColorThiefLib) (service_call : ServiceCall) (n : nat)
    (t : list event) (service_data : gmap string value)
    (colors : option (list rgb)) :
  count_lights (sc_data service_call) = ([], Ok n) →
  extraction_step colorthief service_call (sc_data service_call) n
  = (t, Ok (Continue service_data (Some colors))) →
  colors = None ∨ colors = Some [] →
  truthy colors = false ∧
  async_handle_service colorthief service_call = (t, Ok ()) ∧
  turn_on_calls (trace (async_handle_service colorthief service_call)) = [].
Proof.
  intros Hn Hstep Hcolors.
  assert (Hfalse : truthy colors = false) by (by destruct Hcolors as [->| ->]).
  assert (Hrun : async_handle_service colorthief service_call = (t, Ok ())).
  { unfold async_handle_service.
    rewrite (handle_service_in_unfold _ _ _ n Hn), Hstep, bind_ok.
    simpl. rewrite Hfalse. simpl. by rewrite app_nil_r. }
  split; [done|]. split; [done|]. rewrite Hrun. simpl.
  pose proof (extraction_step_no_call colorthief service_call
                (sc_data service_call) n) as Hq.
  apply turn_on_calls_avoids in Hq. by rewrite Hstep in Hq.
Qed.

(** ** An entity id that is a string *)


(** ** Requests that reach the dispatch loop *)

Lemma acquired_key sc key ty ref f before :
  acquired sc key ty ref f before → key ≠ ATTR_ENTITY_ID.
Proof. by destruct 1. Qed.

(** A request whose image decodes into at least one color runs the loop
    over [zip(lights, colors)]. *)
Lemma handle_service_in_decodes colorthief globals sc key ty ref f before
    n entity :
  acquired sc key ty ref f before →
  thief_open colorthief f = Ok () →
  sc_data sc !! ATTR_ENTITY_ID = Some entity →
  len entity = ([], Ok n) →
  extracted colorthief f n ≠ [] →
  handle_service_in colorthief globals sc
  = (before ++ extraction_events colorthief f n
       ++ trace (dispatch globals (delete key (sc_data sc))
                   (zip (lights_of entity) (extracted colorthief f n))),
     outcome (dispatch globals (delete key (sc_data sc))
                (zip (lights_of entity) (extracted colorthief f n)))).
Proof.
  intros Hacq Hopen Hent Hlen Hne.
  assert (Hn : count_lights (sc_data sc) = ([], Ok n)).
  { unfold count_lights, getitem. by rewrite Hent, ret_bind. }
  rewrite (handle_service_in_unfold _ _ _ n Hn).
  rewrite (extraction_step_decodes _ _ _ _ _ _ _ _ Hacq Hopen), bind_ok.
  unfold after_extraction.
  destruct (extracted colorthief f n) as [|c cs] eqn:Hex; [done|].
  simpl truthy. cbv iota. unfold getitem.
  rewrite lookup_delete_ne by (by eapply acquired_key).
  rewrite Hent, ret_bind. simpl default. by rewrite <- app_assoc.
Qed.

(** In [services.py] as it is, such a request stops at the first pair: the
    name [hass] is not bound, and no downstream call is issued. *)
Lemma async_handle_service_stops colorthief sc key ty ref f before n entity :
  acquired sc key ty ref f before →
  thief_open colorthief f = Ok () →
  sc_data sc !! ATTR_ENTITY_ID = Some entity →
  len entity = ([], Ok n) →
  zip (lights_of entity) (extracted colorthief f n) ≠ [] →
  async_handle_service colorthief sc
  = (before ++ extraction_events colorthief f n, Raise (NameError "hass")).
Proof.
  intros Hacq Hopen Hent Hlen Hne. unfold async_handle_service.
  rewrite (handle_service_in_decodes _ _ _ _ _ _ _ _ _ _ Hacq Hopen Hent Hlen).
  - destruct (zip _ _) as [|p ps]; [done|].
    rewrite (dispatch_unbound _ _ _ _ services_globals_hass).
    unfold trace, outcome. cbn [fst snd]. by rewrite app_nil_r.
  - intros Hex. rewrite Hex in Hne. by destruct (lights_of entity).
Qed.

(** A request whose entity ids are a one-element list asks the extractor
    for one color, and gets the one-element list of the dominant color. *)
Lemma one_entity_list_one_color colorthief sc key ty ref f before e :
  acquired sc key ty ref f before →
  thief_open colorthief f = Ok () →
  sc_data sc !! ATTR_ENTITY_ID = Some (VList [e]) →
  count_lights (sc_data sc) = ([], Ok 1%nat) ∧
  _get_color colorthief f 1
  = (extraction_events colorthief f 1, Ok [thief_get_color colorthief f 1]) ∧
  colors_requested (trace (async_handle_service colorthief sc)) = [1%nat].
Proof.
  intros Hacq Hopen Hent.
  assert (Hn : count_lights (sc_data sc) = ([], Ok 1%nat)).
  { unfold count_lights, getitem. by rewrite Hent. }
  split; [done|]. split; [by rewrite (_get_color_decodes _ _ _ Hopen)|].
  rewrite (async_handle_service_stops _ _ _ _ _ _ _ 1 (VList [e])
             Hacq Hopen Hent); [|done|done].
  simpl. by destruct Hacq.
Qed.

(** ** The dispatch loop in [services.py] as it is *)

(** C1, at a request for two lights whose image decodes into two colors.
    The handler builds the data of the first pair and then reads the name
    [hass], which neither the handler nor the module binds: it raises
    [NameError] and no [light.turn_on] call is issued.  With a global [hass]
    bound to the host the same run issues one call per pair, in order, each
    completed before the next, each with the pass-through data, one entity
    id and one color. *)
Theorem C1_dispatch_raises_NameError :
  outcome (async_handle_service Sample.thief Sample.two_lights_call)
  = Raise (NameError "hass") ∧
  turn_on_calls (trace (async_handle_service Sample.thief
                          Sample.two_lights_call)) = [] ∧
  handle_service_in Sample.thief (globals_with_hass Sample.open_hass)
    Sample.two_lights_call
  = (trace (async_handle_service Sample.thief Sample.two_lights_call)
     ++ [ServiceCallIssued "light" "turn_on"
           (Sample.passed_on (VStr "light.a") (10, 20, 30)%Z) true;
         ServiceCallCompleted "light" "turn_on"
           (Sample.passed_on (VStr "light.a") (10, 20, 30)%Z);
         ServiceCallIssued "light" "turn_on"
           (Sample.passed_on (VStr "light.b") (40, 50, 60)%Z) true;
         ServiceCallCompleted "light" "turn_on"
           (Sample.passed_on (VStr "light.b") (40, 50, 60)%Z)],
     Ok ()).
Proof. by vm_compute. Qed.

(** C2.  A request with exactly one target entity (a one-element list of
    entity ids, as the schema hands them to the handler) whose image is
    acquired and decodes: the count of lights is 1, the extraction step runs
    with that count, the extractor is asked once, for the dominant color and
    not for a palette, and what comes back is the one-element list holding
    that color. *)
Theorem C2_one_entity_one_color
    (colorthief : ColorThiefLib) (service_call : ServiceCall)
    (key image_type : string) (image_reference : value)
    (f : file_handler) (before : list event) (e : string) :
  sc_data service_call !! ATTR_ENTITY_ID = Some (VList [e]) →
  acquired service_call key image_type image_reference f before →
  thief_open colorthief f = Ok () →
  count_lights (sc_data service_call) = ([], Ok 1%nat) ∧
  _get_color colorthief f 1
  = (extraction_events colorthief f 1, Ok [thief_get_color colorthief f 1]) ∧
  extraction_step colorthief service_call (sc_data service_call) 1
  = (before ++ extraction_events colorthief f 1,
     Ok (Continue (delete key (sc_data service_call))
                  (Some (Some [thief_get_color colorthief f 1])))) ∧
  colors_requested (trace (async_handle_service colorthief service_call))
  = [1%nat] ∧
  filter (λ ev, is_extractor_call ev = true)
    (trace (async_handle_service colorthief service_call))
  = [ThiefGetColor 1].
Proof.
  intros Hent Hacq Hopen.
  destruct (one_entity_list_one_color _ _ _ _ _ _ _ _ Hacq Hopen Hent)
    as (Hn & Hcolor & Hasked).
  split; [done|]. split; [done|]. split; [|split; [done|]].
  - by rewrite (extraction_step_decodes _ _ _ _ _ _ _ 1 Hacq Hopen).
  - rewrite (async_handle_service_stops _ _ _ _ _ _ _ 1 (VList [e])
               Hacq Hopen Hent); [|done|done].
    simpl. by destruct Hacq.
Qed.

Lemma C2_witness :
  colors_requested (trace (async_handle_service Sample.thief
                             Sample.one_light_call)) = [1%nat].
Proof.
  refine (proj1 (proj2 (proj2 (proj2
    (C2_one_entity_one_color Sample.thief Sample.one_light_call
       ATTR_URL "URL" (VStr "https://example.com/cover.jpg")
       (BytesIO "JFIF" "color_palette_extractor.jpg") _ "light.a"
       eq_refl
       (acquired_url Sample.one_light_call "https://example.com/cover.jpg"
          "JFIF" {| content_read := Ok "JFIF" |}
          eq_refl eq_refl eq_refl eq_refl)
       eq_refl))))).
Defined.

(** C3, at entities [light.a], [light.b], [light.c] and an image that
    yields the colors (10,20,30) and (40,50,60).  The extractor is asked for
    three colors, but the run then stops at the unbound name [hass] with no
    call issued, where positional pairing gives two.  With a global [hass]
    bound to the host the two calls are issued, [light.a] with (10,20,30)
    and [light.b] with (40,50,60), and [light.c] gets none. *)
Theorem C3_three_lights_two_colors_no_call :
  colors_requested (trace (async_handle_service Sample.thief
                             Sample.three_lights_call)) = [3%nat] ∧
  outcome (async_handle_service Sample.thief Sample.three_lights_call)
  = Raise (NameError "hass") ∧
  turn_on_calls (trace (async_handle_service Sample.thief
                          Sample.three_lights_call)) = [] ∧
  turn_on_calls (trace (handle_service_in Sample.thief
                          (globals_with_hass Sample.open_hass)
                          Sample.three_lights_call))
  = [Sample.passed_on (VStr "light.a") (10, 20, 30)%Z;
     Sample.passed_on (VStr "light.b") (40, 50, 60)%Z].
Proof. by vm_compute. Qed.

(** ** Instances *)

Lemma C4_witness :
  async_handle_service Sample.thief Sample.refused_url_call
  = ([url_not_allowed_record "https://example.com/cover.jpg"], Ok ()).
Proof.
  refine (proj2 (proj2 (proj2
    (C4_disallowed_url_never_fetched Sample.thief Sample.refused_url_call
       "https://example.com/cover.jpg" _ _))) 1%nat _);
    vm_compute; reflexivity.
Defined.

Lemma C5_witness :
  async_handle_service Sample.thief Sample.refused_path_call
  = ([ExecutorJob; path_not_allowed_record "/config/www/cover.jpg"], Ok ()).
Proof.
  refine (proj2 (proj2 (proj2
    (C5_disallowed_path_never_opened Sample.thief Sample.refused_path_call
       "/config/www/cover.jpg" _ _ _))) 1%nat _);
    vm_compute; reflexivity.
Defined.

Lemma C6_witness :
  turn_on_calls (trace (async_handle_service Sample.thief Sample.slow_call))
  = [].
Proof.
  refine (proj2 (proj2
    (C6_get_failure_is_no_result Sample.thief Sample.slow_call
       "https://example.com/cover.jpg" TimeoutError 1 _ _ _ _ _)));
    first [ by left | vm_compute; reflexivity ].
Defined.

Lemma C7_witness :
  outcome (async_handle_service Sample.blind_thief Sample.path_call) = Ok ().
Proof.
  refine (proj1
    (C7_bad_image_aborts_quietly Sample.blind_thief Sample.path_call
       ATTR_PATH "file path" "cannot identify image file"
       (VStr "/config/www/cover.jpg") (FilePath "/config/www/cover.jpg")
       _ 1 (acquired_path Sample.path_call "/config/www/cover.jpg" _ _ _)
       _ _));
    vm_compute; reflexivity.
Defined.

Lemma C9_witness :
  async_handle_service Sample.thief Sample.refused_url_call
  = ([url_not_allowed_record "https://example.com/cover.jpg"], Ok ()).
Proof.
  refine (proj1 (proj2
    (C9_no_colors_no_dispatch Sample.thief Sample.refused_url_call 1
       [url_not_allowed_record "https://example.com/cover.jpg"]
       (delete ATTR_URL (sc_data Sample.refused_url_call)) None _ _ _)));
    first [ by left | vm_compute; reflexivity ].
Defined.


(** ** The schema *)

Lemma has_at_least_one_key_ok keys obj data :
  has_at_least_one_key keys obj = Ok data →
  data = obj ∧ Exists (λ k, is_Some (obj !! k)) keys.
Proof.
  unfold has_at_least_one_key. case_bool_decide; [|done].
  by intros [= <-].
Qed.

Lemma validate_dict_ok schema obj data :
  validate_dict schema obj = Ok data →
  map_Forall (λ k v, accepts schema k v) obj ∧
  (∀ k1 k2, is_Some (obj !! k1) → is_Some (obj !! k2) →
            ¬ clash schema k1 k2).
Proof.
  unfold validate_dict. repeat case_bool_decide; try done.
  intros _. split; [done|].
  intros k1 k2 [v1 H1] [v2 H2]. eapply H0; eauto.
Qed.

Lemma map_imap_no_new {A B} (F : string → A → option B)
    (m : gmap string A) (k : string) :
  is_Some (map_imap F m !! k) → is_Some (m !! k).
Proof.
  rewrite map_lookup_imap. destruct (m !! k); [eauto | by intros [? [=]]].
Qed.

Lemma validate_dict_out schema obj data :
  validate_dict schema obj = Ok data →
  data = map_imap (λ k v,
           match schema !! k with
           | Some f =>
               if remove f then None
               else match check f v with Ok v' => Some v' | _ => None end
           | None => None
           end) obj.
Proof.
  unfold validate_dict. repeat case_bool_decide; try done. by intros [= <-].
Qed.

Lemma vol_All_ok {A} (v1 v2 : A → result A) obj data :
  vol_All v1 v2 obj = Ok data →
  ∃ mid, v1 obj = Ok mid ∧ v2 mid = Ok data.
Proof. unfold vol_All. destruct (v1 obj); [eauto | done]. Qed.

Section SchemaFacts.
Context (LIGHT_TURN_ON_SCHEMA ENTITY_SERVICE_FIELDS : gmap string field).
Context (cv_isfile cv_url : value → result value).

(** The target fields of entity services are [entity_id], [device_id],
    [area_id] and the like: neither reference is one of them. *)
Hypothesis target_not_url : ENTITY_SERVICE_FIELDS !! ATTR_URL = None.
Hypothesis target_not_path : ENTITY_SERVICE_FIELDS !! ATTR_PATH = None.

Local Abbreviation service_schema :=
  (SERVICE_SCHEMA LIGHT_TURN_ON_SCHEMA ENTITY_SERVICE_FIELDS cv_isfile cv_url).
Local Abbreviation metadata_entry :=
  ({["metadata" := {| group := None; check := cv_dict; remove := true |}]}
     : gmap string field).
Local Abbreviation full_schema :=
  (ENTITY_SERVICE_FIELDS
     ∪ extended_schema LIGHT_TURN_ON_SCHEMA cv_isfile cv_url
     ∪ metadata_entry).
Local Abbreviation light_schema :=
  (ENTITY_SERVICE_FIELDS ∪ LIGHT_TURN_ON_SCHEMA ∪ metadata_entry).

Lemma full_schema_url_field :
  full_schema !! ATTR_URL
  = Some {| group := Some "color_palette_extractor"; check := cv_url;
            remove := false |}.
Proof.
  apply lookup_union_Some_l. rewrite lookup_union_r by done.
  unfold extended_schema. by rewrite lookup_insert_eq.
Qed.

Lemma full_schema_path_field :
  full_schema !! ATTR_PATH
  = Some {| group := Some "color_palette_extractor"; check := cv_isfile;
            remove := false |}.
Proof.
  apply lookup_union_Some_l. rewrite lookup_union_r by done.
  unfold extended_schema. rewrite lookup_insert_ne by done.
  by rewrite lookup_insert_eq.
Qed.

Lemma full_schema_url :
  group <$> full_schema !! ATTR_URL = Some (Some "color_palette_extractor").
Proof. by rewrite full_schema_url_field. Qed.

Lemma full_schema_path :
  group <$> full_schema !! ATTR_PATH = Some (Some "color_palette_extractor").
Proof. by rewrite full_schema_path_field. Qed.

Lemma full_schema_other k :
  k ≠ ATTR_URL → k ≠ ATTR_PATH → full_schema !! k = light_schema !! k.
Proof.
  intros Hu Hp. rewrite !lookup_union. unfold extended_schema.
  by rewrite !lookup_insert_ne.
Qed.

Lemma url_path_clash : clash full_schema ATTR_URL ATTR_PATH.
Proof.
  split; [done|]. exists "color_palette_extractor".
  split; [apply full_schema_url | apply full_schema_path].
Qed.

Lemma target_field_not_reference k :
  k ∈ (map_to_list ENTITY_SERVICE_FIELDS).*1 → k ≠ ATTR_URL ∧ k ≠ ATTR_PATH.
Proof.
  intros ([k' f] & -> & Hin%elem_of_map_to_list)%list_elem_of_fmap.
  simpl. split; intros ->; congruence.
Qed.

(** The schema takes its data apart: what it accepts holds one reference,
    and the rest is data [light.turn_on]'s own schema accepts, validated to
    the same values. *)
Lemma SERVICE_SCHEMA_ok raw data :
  service_schema raw = Ok data →
  (is_Some (raw !! ATTR_URL) ∨ is_Some (raw !! ATTR_PATH)) ∧
  ¬ (is_Some (raw !! ATTR_URL) ∧ is_Some (raw !! ATTR_PATH)) ∧
  light_turn_on_schema LIGHT_TURN_ON_SCHEMA ENTITY_SERVICE_FIELDS
    (delete ATTR_URL (delete ATTR_PATH raw))
  = Ok (delete ATTR_URL (delete ATTR_PATH data)).
Proof.
  unfold SERVICE_SCHEMA.
  intros (mid & [-> Hone]%has_at_least_one_key_ok & H)%vol_All_ok.
  unfold make_entity_service_schema in H.
  apply vol_All_ok in H as (mid & Hval & [Heq Htarget]%has_at_least_one_key_ok).
  subst mid. pose proof Hval as [Hacc Hex]%validate_dict_ok.
  split; [|split].
  - apply Exists_cons in Hone as [?|Hone]; [by left|].
    apply Exists_cons in Hone as [?|Hone]; [by right|].
    by apply Exists_nil in Hone.
  - intros [Hu Hp]. apply (Hex _ _ Hu Hp), url_path_clash.
  - unfold light_turn_on_schema, make_entity_service_schema, vol_All.
    assert (Hrest : ∀ k v,
      delete ATTR_URL (delete ATTR_PATH raw) !! k = Some v →
      k ≠ ATTR_URL ∧ k ≠ ATTR_PATH ∧ raw !! k = Some v).
    { intros k v [Hu [Hp Hk]%lookup_delete_Some]%lookup_delete_Some. done. }
    assert (Hout :
      validate_dict light_schema (delete ATTR_URL (delete ATTR_PATH raw))
      = Ok (delete ATTR_URL (delete ATTR_PATH data))).
    { apply validate_dict_out in Hval as ->. unfold validate_dict.
      rewrite bool_decide_eq_true_2; last first.
      { intros k v (Hu & Hp & Hk)%Hrest.
        destruct (Hacc k v Hk) as (f & Hf & Hv). exists f.
        by rewrite <- full_schema_other. }
      rewrite bool_decide_eq_true_2; last first.
      { intros k1 v1 (Hu1 & Hp1 & Hk1)%Hrest k2 v2 (Hu2 & Hp2 & Hk2)%Hrest.
        intros (Hne & g & Hg1 & Hg2).
        apply (Hex k1 k2); [eauto..|].
        split; [done|]. exists g. by rewrite !full_schema_other. }
      f_equal. apply map_eq. intros k.
      destruct (decide (k = ATTR_URL)) as [->|Hu].
      { by rewrite map_lookup_imap, !lookup_delete_eq. }
      destruct (decide (k = ATTR_PATH)) as [->|Hp].
      { rewrite map_lookup_imap.
        rewrite !(lookup_delete_ne _ ATTR_URL ATTR_PATH) by done.
        by rewrite !lookup_delete_eq. }
      rewrite map_lookup_imap.
      rewrite !(lookup_delete_ne _ ATTR_URL k) by done.
      rewrite !(lookup_delete_ne _ ATTR_PATH k) by done.
      rewrite map_lookup_imap. by rewrite full_schema_other. }
    rewrite Hout. unfold has_at_least_one_key.
    rewrite bool_decide_eq_true_2; [done|].
    apply Exists_exists in Htarget as (k & Hk & Hsome).
    apply Exists_exists. exists k. split; [done|].
    destruct (target_field_not_reference k Hk).
    by rewrite !lookup_delete_ne.
Qed.

Lemma SERVICE_SCHEMA_both raw :
  is_Some (raw !! ATTR_URL) → is_Some (raw !! ATTR_PATH) →
  ∃ msg, service_schema raw = Raise (Invalid msg).
Proof.
  intros Hu Hp. unfold SERVICE_SCHEMA, vol_All, has_at_least_one_key.
  case_bool_decide as Hone; [|eauto].
  unfold make_entity_service_schema, vol_All, validate_dict.
  case_bool_decide; [|eauto].
  case_bool_decide as Hex; [|eauto].
  destruct Hu as [vu Hu], Hp as [vp Hp].
  destruct (Hex _ _ Hu _ _ Hp). apply url_path_clash.
Qed.

(** Validation adds no key, and keeps the reference it was given. *)
Lemma SERVICE_SCHEMA_keys raw data :
  service_schema raw = Ok data →
  (∀ k, is_Some (data !! k) → is_Some (raw !! k)) ∧
  (is_Some (data !! ATTR_URL) ↔ is_Some (raw !! ATTR_URL)) ∧
  (is_Some (data !! ATTR_PATH) ↔ is_Some (raw !! ATTR_PATH)).
Proof.
  unfold SERVICE_SCHEMA.
  intros (mid & [-> Hone]%has_at_least_one_key_ok & H)%vol_All_ok.
  unfold make_entity_service_schema in H.
  apply vol_All_ok in H as (mid & Hval & [Heq _]%has_at_least_one_key_ok).
  subst mid. pose proof Hval as [Hacc _]%validate_dict_ok.
  apply validate_dict_out in Hval as ->.
  split; [intros k; apply map_imap_no_new|].
  split; (split; [apply map_imap_no_new|]).
  - intros [v Hv]. rewrite map_lookup_imap, Hv. simpl.
    destruct (Hacc _ _ Hv) as (f & Hf & Hok).
    rewrite full_schema_url_field in Hf. injection Hf as <-.
    rewrite full_schema_url_field. simpl in *.
    destruct (cv_url v); [eauto | done].
  - intros [v Hv]. rewrite map_lookup_imap, Hv. simpl.
    destruct (Hacc _ _ Hv) as (f & Hf & Hok).
    rewrite full_schema_path_field in Hf. injection Hf as <-.
    rewrite full_schema_path_field. simpl in *.
    destruct (cv_isfile v); [eauto | done].
Qed.
End SchemaFacts.

Lemma SERVICE_SCHEMA_neither LIGHT_TURN_ON_SCHEMA ENTITY_SERVICE_FIELDS
    cv_isfile cv_url raw :
  raw !! ATTR_URL = None → raw !! ATTR_PATH = None →
  ∃ msg, SERVICE_SCHEMA LIGHT_TURN_ON_SCHEMA ENTITY_SERVICE_FIELDS
           cv_isfile cv_url raw = Raise (Invalid msg).
Proof.
  intros Hu Hp. unfold SERVICE_SCHEMA, vol_All, has_at_least_one_key.
  case_bool_decide as Hone; [|eauto].
  apply Exists_cons in Hone as [[? Hone]|Hone]; [congruence|].
  apply Exists_cons in Hone as [[? Hone]|Hone]; [congruence|].
  by apply Exists_nil in Hone.
Qed.

(** C8.  The service is registered with [SERVICE_SCHEMA], and the host runs
    the handler on validated data only.  Neither reference being a target
    field of entity services: data the schema accepts hold exactly one of
    the URL and the path, and the other parameters are data that the schema
    of [light.turn_on] accepts (its fields, their validators, its groups of
    exclusion, a target field), validated to the same values.  Data the
    schema rejects never reach the handler: the call raises the validation
    error with no event performed.  Data with both references, or with
    neither, are rejected. *)
Theorem C8_schema_rejects_unless_exactly_one
    (LIGHT_TURN_ON_SCHEMA ENTITY_SERVICE_FIELDS : gmap string field)
    (cv_isfile cv_url : value → result value)
    (colorthief : ColorThiefLib) (hass : HomeAssistant)
    (raw : gmap string value) :
  ENTITY_SERVICE_FIELDS !! ATTR_URL = None →
  ENTITY_SERVICE_FIELDS !! ATTR_PATH = None →
  (∀ data,
     SERVICE_SCHEMA LIGHT_TURN_ON_SCHEMA ENTITY_SERVICE_FIELDS
       cv_isfile cv_url raw = Ok data →
     (is_Some (raw !! ATTR_URL) ∨ is_Some (raw !! ATTR_PATH)) ∧
     ¬ (is_Some (raw !! ATTR_URL) ∧ is_Some (raw !! ATTR_PATH)) ∧
     light_turn_on_schema LIGHT_TURN_ON_SCHEMA ENTITY_SERVICE_FIELDS
       (delete ATTR_URL (delete ATTR_PATH raw))
     = Ok (delete ATTR_URL (delete ATTR_PATH data))) ∧
  (∀ e,
     SERVICE_SCHEMA LIGHT_TURN_ON_SCHEMA ENTITY_SERVICE_FIELDS
       cv_isfile cv_url raw = Raise e →
     call_service
       (async_setup_services LIGHT_TURN_ON_SCHEMA ENTITY_SERVICE_FIELDS
          cv_isfile cv_url colorthief)
       hass DOMAIN SERVICE_TURN_ON raw
     = ([], Raise e)) ∧
  (is_Some (raw !! ATTR_URL) → is_Some (raw !! ATTR_PATH) →
   ∃ msg, SERVICE_SCHEMA LIGHT_TURN_ON_SCHEMA ENTITY_SERVICE_FIELDS
            cv_isfile cv_url raw = Raise (Invalid msg)) ∧
  (raw !! ATTR_URL = None → raw !! ATTR_PATH = None →
   ∃ msg, SERVICE_SCHEMA LIGHT_TURN_ON_SCHEMA ENTITY_SERVICE_FIELDS
            cv_isfile cv_url raw = Raise (Invalid msg)).
Proof.
  intros Hnu Hnp. split; [|split; [|split]].
  - intros data. by apply SERVICE_SCHEMA_ok.
  - intros e He. unfold call_service, async_setup_services.
    rewrite lookup_singleton_eq. simpl. by rewrite He.
  - by apply SERVICE_SCHEMA_both.
  - apply SERVICE_SCHEMA_neither.
Qed.

Lemma C8_witness :
  ∃ msg, Sample.schema Sample.both_references = Raise (Invalid msg).
Proof.
  refine (proj1 (proj2 (proj2
    (C8_schema_rejects_unless_exactly_one Sample.light_fields
       Sample.entity_fields Ok Ok Sample.thief Sample.open_hass
       Sample.both_references _ _))) _ _);
    vm_compute; eauto.
Defined.

Example schema_accepts_url_request :
  Sample.schema (Sample.url_request (VList ["light.a"]))
  = Ok (Sample.url_request (VList ["light.a"])).
Proof. by vm_compute. Qed.

Example schema_rejects_both :
  Sample.schema Sample.both_references
  = Raise (Invalid "two or more values in the same group of exclusion").
Proof. by vm_compute. Qed.

Example schema_rejects_neither :
  Sample.schema Sample.no_reference
  = Raise (Invalid "must contain at least one of the keys").
Proof. by vm_compute. Qed.

Example rejected_call_performs_nothing :
  call_service
    (async_setup_services Sample.light_fields Sample.entity_fields Ok Ok
       Sample.thief)
    Sample.open_hass DOMAIN SERVICE_TURN_ON Sample.both_references
  = ([], Raise (Invalid "two or more values in the same group of exclusion")).
Proof. by vm_compute. Qed.

(** An empty palette ends the run like [None] does. *)
Example empty_palette_no_dispatch :
  outcome (async_handle_service Sample.empty_thief Sample.two_lights_call)
  = Ok () ∧
  turn_on_calls (trace (handle_service_in Sample.empty_thief
                          (globals_with_hass Sample.open_hass)
                          Sample.two_lights_call)) = [].
Proof. by vm_compute. Qed.

(** With [hass] bound, a string entity id gets the first color of the
    palette asked for its length, and nothing else is called. *)
Example string_entity_one_call :
  turn_on_calls (trace (handle_service_in Sample.thief
                          (globals_with_hass Sample.open_hass)
                          Sample.string_entity_call))
  = [Sample.passed_on (VStr "light.a") (10, 20, 30)%Z].
Proof. by vm_compute. Qed.

(** * Further properties of [services.py] *)

(** ** Facts that hold of every event of a run *)

Section Always.
Context (Q : event → Prop).

Lemma always_ret {A} (a : A) : always Q (mret a).
Proof. constructor. Qed.

Lemma always_raise {A} (e : exn) : always Q (raise e : M A).
Proof. constructor. Qed.

Lemma always_lift {A} (r : result A) : always Q (lift r).
Proof. constructor. Qed.

Lemma always_emit (e : event) : Q e → always Q (emit e).
Proof. intros H. by repeat constructor. Qed.

(** The continuation only matters at the value the first part returns. *)
Lemma always_bind {A B} (m : M A) (f : A → M B) :
  always Q m → (∀ a, outcome m = Ok a → always Q (f a)) →
  always Q (m ≫= f).
Proof.
  unfold always. intros Hm Hf. rewrite trace_bind.
  apply Forall_app. split; [done|].
  destruct (outcome m) as [a|e]; [by apply Hf | constructor].
Qed.

Lemma always_try_except {A} (m : M A) catches (h : exn → M A) :
  always Q m → (∀ e, outcome m = Raise e → always Q (h e)) →
  always Q (try_except m catches h).
Proof.
  unfold always. intros Hm Hh. rewrite trace_try_except.
  apply Forall_app. split; [done|].
  destruct (outcome m) as [a|e]; [constructor|].
  destruct (catches e); [by apply Hh | constructor].
Qed.
End Always.

Lemma always_impl {A} (Q1 Q2 : event → Prop) (m : M A) :
  always Q1 m → (∀ e, Q1 e → Q2 e) → always Q2 m.
Proof. unfold always. intros H Himp. eapply Forall_impl; eauto. Qed.

Lemma avoids_always {A} (P : event → bool) (m : M A) :
  avoids P m ↔ always (λ e, P e = false) m.
Proof. done. Qed.

Lemma always_elem {A} (Q : event → Prop) (m : M A) (e : event) :
  always Q m → e ∈ trace m → Q e.
Proof. unfold always. rewrite Forall_forall. eauto. Qed.

(** ** The events of the loop *)

(** Whatever the globals and the host, the loop performs nothing but
    [light.turn_on] calls on the data of its pairs. *)
Lemma dispatch_events globals sd pairs :
  always (λ e, ∃ p, p ∈ pairs ∧ e ∈ call_events sd p)
    (dispatch globals sd pairs).
Proof.
  induction pairs as [|[entity_id color] ps IH]; [constructor|].
  simpl. apply always_bind.
  { unfold load_global. destruct (globals !! "hass"); constructor. }
  intros o _. apply always_bind.
  { destruct o; constructor. }
  intros h _. apply always_bind.
  - unfold async_call. apply always_bind.
    { apply always_emit. exists (entity_id, color).
      split; [left|]. unfold call_events, call_data. simpl. left. }
    intros _ _. apply always_bind; [apply always_lift|].
    intros _ _. apply always_emit. exists (entity_id, color).
    split; [left|]. unfold call_events, call_data. simpl. right. left.
  - intros _ _. eapply always_impl; [exact IH|].
    intros e (p & Hp & He). exists p. split; [by right | done].
Qed.

Lemma bind_assoc {A B C} (m : M A) (f : A → M B) (g : B → M C) :
  ((m ≫= f) ≫= g) = (m ≫= λ a, f a ≫= g).
Proof.
  destruct m as [t [a|e]]; [|done].
  unfold mbind, M_bind. destruct (f a) as [t1 [b|e]]; [|done].
  destruct (g b) as [t2 r]. by rewrite app_assoc.
Qed.

Lemma bind_ext {A B} (m : M A) (f g : A → M B) :
  (∀ a, f a = g a) → (m ≫= f) = (m ≫= g).
Proof.
  intros H. destruct m as [t [a|e]]; [|done].
  unfold mbind, M_bind. by rewrite H.
Qed.

Lemma dispatch_cons globals sd entity_id color rest :
  dispatch globals sd ((entity_id, color) :: rest)
  = (load_global globals "hass" ≫= λ hass,
     get_services hass ≫= λ bus,
     async_call bus LIGHT_DOMAIN LIGHT_SERVICE_TURN_ON
       (call_data sd (entity_id, color)) true ≫= λ _,
     dispatch globals sd rest).
Proof. done. Qed.

(** The loop over two lists of pairs, one after the other. *)
Lemma dispatch_app globals sd ps1 ps2 :
  dispatch globals sd (ps1 ++ ps2)
  = (dispatch globals sd ps1 ≫= λ _, dispatch globals sd ps2).
Proof.
  induction ps1 as [|[entity_id color] ps1 IH].
  - rewrite app_nil_l.
    change (dispatch globals sd []) with (mret () : M ()).
    by rewrite ret_bind.
  - rewrite <- app_comm_cons, !dispatch_cons, !bind_assoc.
    apply bind_ext. intros o. rewrite bind_assoc.
    apply bind_ext. intros h. rewrite bind_assoc.
    apply bind_ext. intros _. exact IH.
Qed.

(** ** What the extraction step hands over *)

Lemma as_str_ok v s : outcome (as_str v) = Ok s → v = VStr s.
Proof. destruct v; simpl; congruence. Qed.

Lemma extraction_step_continue colorthief sc d n sd colors :
  outcome (extraction_step colorthief sc d n) = Ok (Continue sd colors) →
  (colors = None ∧ sd = d ∧ d !! ATTR_URL = None ∧ d !! ATTR_PATH = None) ∨
  (is_Some colors ∧ sd = delete (popped_key d) d ∧
   (is_Some (d !! ATTR_URL) ∨ is_Some (d !! ATTR_PATH))).
Proof.
  unfold extraction_step, popped_key.
  destruct (d !! ATTR_URL) as [ref|] eqn:Hu;
    [|destruct (d !! ATTR_PATH) as [ref|] eqn:Hp].
  - intros [H|[e H]]%try_except_outcome_ok; [|done].
    apply bind_outcome_ok in H as (url & _ & H).
    apply bind_outcome_ok in H as (cs & _ & H).
    injection H as <- <-. right. eauto.
  - intros [H|[e H]]%try_except_outcome_ok; [|done].
    apply bind_outcome_ok in H as (p & _ & H).
    apply bind_outcome_ok in H as (cs & _ & H).
    injection H as <- <-. right. eauto.
  - intros [= <- <-]. by left.
Qed.

Lemma turn_on_calls_always {A} (Q : gmap string value → Prop) (m : M A) :
  always (λ e, ∀ dom svc d b, e = ServiceCallIssued dom svc d b → Q d) m →
  Forall Q (turn_on_calls (trace m)).
Proof.
  unfold always. induction 1 as [|e t He _ IH]; [constructor|].
  destruct e; try exact IH. simpl. constructor; [|exact IH]. eauto.
Qed.

(** The events of the handler are those of the extraction step followed by
    those of the loop over the data the step hands over. *)
Lemma handle_service_in_always colorthief globals sc (Q : event → Prop) :
  (∀ n, always Q (extraction_step colorthief sc (sc_data sc) n)) →
  (∀ entity p e,
     sc_data sc !! ATTR_ENTITY_ID = Some entity →
     p.1 ∈ lights_of entity →
     e ∈ call_events (delete (popped_key (sc_data sc)) (sc_data sc)) p →
     Q e) →
  always Q (handle_service_in colorthief globals sc).
Proof.
  intros Hstep Hcall. unfold handle_service_in.
  apply always_bind.
  { unfold always. rewrite count_lights_trace. constructor. }
  intros n _. apply always_bind; [apply Hstep|].
  intros [|sd [colors|]] Hout; simpl; try constructor.
  destruct (truthy colors); [|constructor].
  apply extraction_step_continue in Hout as Hsd.
  destruct Hsd as [(? & _)|(_ & -> & _)]; [done|].
  apply extraction_step_data in Hout.
  unfold getitem. rewrite Hout.
  destruct (sc_data sc !! ATTR_ENTITY_ID) as [entity|] eqn:Hent;
    [|constructor].
  rewrite ret_bind. eapply always_impl; [apply dispatch_events|].
  intros e (p & Hp & He). apply (Hcall entity p e); [done| |done].
  destruct p as [x c]. by apply elem_of_zip_l in Hp.
Qed.

(** ** The loop, in [services.py] and with [hass] bound *)

(** X1.  [async_handle_service], as [services.py] defines it, issues no
    [light.turn_on] call, whatever the request, the host and the library:
    either the loop is not reached or has no pair, or its first pair stops
    at the unbound name [hass]. *)
Theorem X1_no_call_as_written
    (colorthief : ColorThiefLib) (service_call : ServiceCall) :
  turn_on_calls (trace (async_handle_service colorthief service_call)) = [].
Proof.
  apply turn_on_calls_avoids. unfold async_handle_service, handle_service_in.
  apply avoids_bind; [apply count_lights_avoids|]. intros n.
  apply avoids_bind; [apply extraction_step_no_call|].
  intros [|sd [colors|]]; simpl; try constructor.
  destruct (truthy colors); [|constructor].
  unfold getitem. destruct (sd !! ATTR_ENTITY_ID) as [entity|]; [|constructor].
  rewrite ret_bind. destruct (zip _ _) as [|p ps]; [constructor|].
  rewrite (dispatch_unbound _ _ _ _ services_globals_hass). constructor.
Qed.

(** X2.  A request whose image is acquired and decodes, and for which
    [zip(lights, colors)] has a pair, makes [async_handle_service] raise
    [NameError] for [hass] right after the extraction. *)
Theorem X2_loop_raises_NameError
    (colorthief : ColorThiefLib) (service_call : ServiceCall)
    (key image_type : string) (image_reference entity : value)
    (f : file_handler) (before : list event) (n : nat) :
  acquired service_call key image_type image_reference f before →
  thief_open colorthief f = Ok () →
  sc_data service_call !! ATTR_ENTITY_ID = Some entity →
  len entity = ([], Ok n) →
  zip (lights_of entity) (extracted colorthief f n) ≠ [] →
  async_handle_service colorthief service_call
  = (before ++ extraction_events colorthief f n, Raise (NameError "hass")).
Proof. apply async_handle_service_stops. Qed.

Lemma X2_witness :
  outcome (async_handle_service Sample.thief Sample.two_lights_call)
  = Raise (NameError "hass").
Proof.
  refine (f_equal snd
    (X2_loop_raises_NameError Sample.thief Sample.two_lights_call
       ATTR_URL "URL" (VStr "https://example.com/cover.jpg")
       (VList ["light.a"; "light.b"])
       (BytesIO "JFIF" "color_palette_extractor.jpg") _ 2
       (acquired_url Sample.two_lights_call "https://example.com/cover.jpg"
          "JFIF" {| content_read := Ok "JFIF" |} _ _ _ _) _ _ _ _));
    vm_compute; first [reflexivity | discriminate].
Defined.

(** X3.  Run in a module where [hass] is bound to a host whose bus completes
    every call, the handler, on a request whose image is acquired and
    decodes into at least one color, calls [light.turn_on] once per pair of
    [zip(lights, colors)], in order, each call completed before the next is
    issued, on the request data without the popped reference and with that
    pair's entity id and color; it then returns normally. *)
Theorem X3_dispatch_with_hass_bound
    (colorthief : ColorThiefLib) (globals : gmap string pyobj)
    (h : HomeAssistant) (service_call : ServiceCall)
    (key image_type : string) (image_reference entity : value)
    (f : file_handler) (before : list event) (n : nat) :
  globals !! "hass" = Some (PyHass h) →
  acquired service_call key image_type image_reference f before →
  thief_open colorthief f = Ok () →
  sc_data service_call !! ATTR_ENTITY_ID = Some entity →
  len entity = ([], Ok n) →
  extracted colorthief f n ≠ [] →
  (∀ data, services_async_call h LIGHT_DOMAIN LIGHT_SERVICE_TURN_ON data true
           = Ok ()) →
  handle_service_in colorthief globals service_call
  = (before ++ extraction_events colorthief f n
       ++ (zip (lights_of entity) (extracted colorthief f n)
             ≫= call_events (delete key (sc_data service_call))),
     Ok ()).
Proof.
  intros Hg Hacq Hopen Hent Hlen Hne Hbus.
  rewrite (handle_service_in_decodes _ _ _ _ _ _ _ _ _ _
             Hacq Hopen Hent Hlen Hne).
  rewrite (dispatch_bound _ h _ _ Hg); [done|].
  apply Forall_forall. intros p _. apply Hbus.
Qed.

Lemma X3_witness :
  turn_on_calls (trace (handle_service_in Sample.thief
                          (globals_with_hass Sample.open_hass)
                          Sample.three_lights_call))
  = [Sample.passed_on (VStr "light.a") (10, 20, 30)%Z;
     Sample.passed_on (VStr "light.b") (40, 50, 60)%Z].
Proof.
  rewrite (X3_dispatch_with_hass_bound Sample.thief
       (globals_with_hass Sample.open_hass) Sample.open_hass
       Sample.three_lights_call
       ATTR_URL "URL" (VStr "https://example.com/cover.jpg")
       Sample.three_lights
       (BytesIO "JFIF" "color_palette_extractor.jpg") _ 3
       eq_refl
       (acquired_url Sample.three_lights_call "https://example.com/cover.jpg"
          "JFIF" {| content_read := Ok "JFIF" |}
          eq_refl eq_refl eq_refl eq_refl)
       eq_refl eq_refl eq_refl ltac:(discriminate) (λ _, eq_refl)).
  by vm_compute.
Defined.

(** X4.  In the loop, a [light.turn_on] call that fails stops the loop: the
    calls of the pairs before it have completed, the failed call has been
    issued and not completed, no later pair is called, and the exception goes
    to the caller of the handler. *)
Theorem X4_failed_call_halts_loop
    (globals : gmap string pyobj) (h : HomeAssistant)
    (service_data : gmap string value)
    (done_pairs rest : list (value * rgb)) (p : value * rgb) (e : exn) :
  globals !! "hass" = Some (PyHass h) →
  Forall (λ q, services_async_call h LIGHT_DOMAIN LIGHT_SERVICE_TURN_ON
                 (call_data service_data q) true = Ok ()) done_pairs →
  services_async_call h LIGHT_DOMAIN LIGHT_SERVICE_TURN_ON
    (call_data service_data p) true = Raise e →
  dispatch globals service_data (done_pairs ++ p :: rest)
  = ((done_pairs ≫= call_events service_data)
       ++ [ServiceCallIssued LIGHT_DOMAIN LIGHT_SERVICE_TURN_ON
             (call_data service_data p) true],
     Raise e).
Proof.
  intros Hg Hdone Hp. rewrite dispatch_app.
  rewrite (dispatch_bound _ h _ _ Hg Hdone), bind_ok.
  destruct p as [entity_id color]. rewrite dispatch_cons.
  unfold load_global. rewrite Hg, ret_bind. unfold get_services.
  rewrite ret_bind. unfold async_call. unfold call_data in *. simpl in *.
  by rewrite Hp.
Qed.

Lemma X4_witness :
  outcome (dispatch (globals_with_hass Sample.failing_bus_hass) ∅
             ([(VStr "light.a", (10, 20, 30)%Z)]
                ++ (VStr "light.b", (40, 50, 60)%Z)
                :: [(VStr "light.c", (70, 80, 90)%Z)]))
  = Raise (HomeAssistantError "light.b is unavailable").
Proof.
  refine (f_equal snd
    (X4_failed_call_halts_loop (globals_with_hass Sample.failing_bus_hass)
       Sample.failing_bus_hass ∅ [(VStr "light.a", (10, 20, 30)%Z)]
       [(VStr "light.c", (70, 80, 90)%Z)] (VStr "light.b", (40, 50, 60)%Z)
       (HomeAssistantError "light.b is unavailable") _ _ _)).
  - by vm_compute.
  - repeat constructor.
  - by vm_compute.
Defined.

(** ** What a downstream call carries *)

(** X5.  Whatever the module's globals, the host and the library, the
    handler issues at most as many calls as the request has lights: a list
    of entity ids gives at most its length, anything else at most one. *)
Theorem X5_calls_bounded_by_lights
    (colorthief : ColorThiefLib) (globals : gmap string pyobj)
    (service_call : ServiceCall) (entity : value) :
  sc_data service_call !! ATTR_ENTITY_ID = Some entity →
  (length (turn_on_calls
             (trace (handle_service_in colorthief globals service_call)))
   ≤ length (lights_of entity))%nat.
Proof.
  intros Hent. unfold handle_service_in.
  rewrite trace_bind, count_lights_trace, app_nil_l.
  destruct (outcome (count_lights _)) as [n|e]; [|simpl; lia].
  rewrite trace_bind, turn_on_calls_app.
  rewrite (turn_on_calls_avoids _
             (extraction_step_no_call colorthief service_call _ _)).
  simpl.
  destruct (outcome (extraction_step _ _ _ _)) as [[|sd [colors|]]|e] eqn:Hout;
    simpl; try lia.
  destruct (truthy colors); [|simpl; lia].
  apply extraction_step_data in Hout.
  unfold getitem. rewrite Hout, Hent, ret_bind.
  etrans; [apply dispatch_calls_le|].
  rewrite length_zip. lia.
Qed.

Lemma X5_witness :
  (length (turn_on_calls
             (trace (handle_service_in Sample.thief
                       (globals_with_hass Sample.open_hass)
                       Sample.three_lights_call)))
   ≤ 3)%nat.
Proof.
  exact (X5_calls_bounded_by_lights Sample.thief
           (globals_with_hass Sample.open_hass) Sample.three_lights_call
           Sample.three_lights eq_refl).
Defined.

Lemma handle_service_in_call_data colorthief globals sc entity :
  sc_data sc !! ATTR_ENTITY_ID = Some entity →
  Forall (λ data, ∃ entity_id color,
            entity_id ∈ lights_of entity ∧
            data = <[ATTR_RGB_COLOR := VRgb color]>
                     (<[ATTR_ENTITY_ID := entity_id]>
                        (delete (popped_key (sc_data sc)) (sc_data sc))))
    (turn_on_calls (trace (handle_service_in colorthief globals sc))).
Proof.
  intros Hent. apply turn_on_calls_always.
  apply handle_service_in_always.
  - intros n. eapply always_impl.
    + apply avoids_always, extraction_step_no_call.
    + intros e He dom svc d b ->. done.
  - intros entity' [entity_id color] e Hent' Hin He dom svc d b ->.
    rewrite Hent in Hent'. injection Hent' as <-.
    exists entity_id, color. split; [done|].
    unfold call_events, call_data in He. simpl in He.
    apply elem_of_cons in He as [[= _ _ ->]|He]; [done|].
    by apply list_elem_of_singleton in He.
Qed.

(** X6.  Whatever the module's globals, the host and the library, the data
    of every call the handler issues are the request data without the
    reference it popped, with [entity_id] set to one of the request's lights
    and [rgb_color] set to a color; every other key is passed on as it came,
    and an [rgb_color] of the request is overridden. *)
Theorem X6_call_data_shape
    (colorthief : ColorThiefLib) (globals : gmap string pyobj)
    (service_call : ServiceCall) (entity : value) :
  sc_data service_call !! ATTR_ENTITY_ID = Some entity →
  Forall (λ data, ∃ entity_id color,
            entity_id ∈ lights_of entity ∧
            data = <[ATTR_RGB_COLOR := VRgb color]>
                     (<[ATTR_ENTITY_ID := entity_id]>
                        (delete (popped_key (sc_data service_call))
                                (sc_data service_call))))
    (turn_on_calls
       (trace (handle_service_in colorthief globals service_call))).
Proof. apply handle_service_in_call_data. Qed.

Lemma X6_witness :
  Forall (λ data, ∃ entity_id color,
            entity_id ∈ lights_of Sample.three_lights ∧
            data = <[ATTR_RGB_COLOR := VRgb color]>
                     (<[ATTR_ENTITY_ID := entity_id]>
                        (delete (popped_key (sc_data Sample.three_lights_call))
                                (sc_data Sample.three_lights_call))))
    (turn_on_calls
       (trace (handle_service_in Sample.thief
                 (globals_with_hass Sample.open_hass)
                 Sample.three_lights_call))).
Proof.
  exact (X6_call_data_shape Sample.thief
           (globals_with_hass Sample.open_hass) Sample.three_lights_call
           Sample.three_lights eq_refl).
Defined.

(** X7.  When the request has a URL, no call the handler issues carries the
    URL, and a path given besides the URL is passed on to [light.turn_on] as
    it came: the URL branch is taken and only the URL is popped. *)
Theorem X7_url_popped_path_passed_on
    (colorthief : ColorThiefLib) (globals : gmap string pyobj)
    (service_call : ServiceCall) (image_reference : value) :
  sc_data service_call !! ATTR_URL = Some image_reference →
  Forall (λ data, data !! ATTR_URL = None ∧
                  data !! ATTR_PATH = sc_data service_call !! ATTR_PATH)
    (turn_on_calls
       (trace (handle_service_in colorthief globals service_call))).
Proof.
  intros Hurl.
  destruct (sc_data service_call !! ATTR_ENTITY_ID) as [entity|] eqn:Hent.
  - eapply Forall_impl; [by apply handle_service_in_call_data|].
    intros data (entity_id & color & _ & ->).
    unfold popped_key. rewrite Hurl.
    rewrite !lookup_insert_ne by done.
    rewrite lookup_delete_eq, lookup_delete_ne by done. done.
  - rewrite (handle_service_in_no_count _ _ _ (KeyError ATTR_ENTITY_ID));
      [constructor|].
    unfold count_lights, getitem. by rewrite Hent.
Qed.

Lemma X7_witness :
  Forall (λ data, data !! ATTR_URL = None ∧
                  data !! ATTR_PATH
                  = sc_data Sample.both_references_call !! ATTR_PATH)
    (turn_on_calls
       (trace (handle_service_in Sample.thief
                 (globals_with_hass Sample.open_hass)
                 Sample.both_references_call))).
Proof.
  exact (X7_url_popped_path_passed_on Sample.thief
           (globals_with_hass Sample.open_hass) Sample.both_references_call
           (VStr "https://example.com/cover.jpg") eq_refl).
Defined.

(** ** Every fetch and every file open has passed its allowlist *)

Ltac always_step tac :=
  lazymatch goal with
  | |- always _ (mret _) => apply always_ret
  | |- always _ (raise _) => apply always_raise
  | |- always _ (lift _) => apply always_lift
  | |- always _ (emit _) => apply always_emit; tac
  | |- always _ (try_except _ _ _) =>
      apply always_try_except; [| intros ? ?]
  | |- always _ (mbind _ _) => apply always_bind; [| intros ? ?]
  end.

Lemma _get_color_opens colorthief f n :
  always (λ e, is_fetch e = false ∧ is_executor_job e = false ∧
               (is_file_open e = true → e = ImageOpen f))
    (_get_color colorthief f n).
Proof.
  unfold _get_color.
  repeat always_step
    ltac:(split; [done | split; [done | first [by intros [=] | done]]]).
  destruct (decide _);
    repeat always_step ltac:(split; [done | split; [done | by intros [=]]]).
Qed.

Lemma url_fetches colorthief hass url n :
  always (λ e, is_file_open e = false ∧ is_executor_job e = false ∧
               (is_fetch e = true →
                is_allowed_external_url hass url = true ∧
                (e = HttpGet url 10 ∨ e = ContentRead)))
    (_async_extract_color_from_url colorthief hass url n).
Proof.
  unfold _async_extract_color_from_url.
  destruct (is_allowed_external_url hass url) eqn:Hal; simpl negb; cbv iota.
  - repeat always_step
      ltac:(split; [done | split;
              [done | first [by intros [=] | by intros _; eauto]]]).
    match goal with |- context [match ?x with Some _ => _ | None => _ end] =>
      destruct x end;
      repeat always_step
        ltac:(split; [done | split;
                [done | first [by intros [=] | by intros _; eauto]]]).
    eapply always_impl; [apply _get_color_opens|].
    intros e (Hf & Hx & Ho). split; [|split; [done | by rewrite Hf]].
    destruct (is_file_open e) eqn:He; [|done]. by rewrite (Ho eq_refl) in He.
  - repeat always_step ltac:(split; [done | split; [done | by intros [=]]]).
Qed.

Lemma path_opens colorthief hass p n :
  always (λ e, is_fetch e = false ∧
               (is_file_open e = true →
                is_allowed_path hass p = true ∧ e = ImageOpen (FilePath p)))
    (_extract_color_from_path colorthief hass p n).
Proof.
  unfold _extract_color_from_path, _get_file.
  destruct (is_allowed_path hass p) eqn:Hal; simpl negb; cbv iota.
  - repeat always_step ltac:(split; [done | by intros [=]]).
    eapply always_impl; [apply _get_color_opens|].
    intros e (Hf & _ & Ho). split; [done|]. eauto.
  - repeat always_step ltac:(split; [done | by intros [=]]).
Qed.

(** What the extraction step may fetch and open. *)
Lemma extraction_step_io colorthief sc n :
  always (λ e,
    (is_fetch e = true →
     ∃ url, sc_data sc !! ATTR_URL = Some (VStr url) ∧
            is_allowed_external_url (sc_hass sc) url = true ∧
            (e = HttpGet url 10 ∨ e = ContentRead)) ∧
    (is_file_open e = true →
     ∃ p, sc_data sc !! ATTR_URL = None ∧
          sc_data sc !! ATTR_PATH = Some (VStr p) ∧
          is_allowed_path (sc_hass sc) p = true ∧
          e = ImageOpen (FilePath p)) ∧
    (is_executor_job e = true → sc_data sc !! ATTR_URL = None))
    (extraction_step colorthief sc (sc_data sc) n).
Proof.
  unfold extraction_step, bad_image, async_add_executor_job.
  destruct (sc_data sc !! ATTR_URL) as [ref|] eqn:Hu;
    [|destruct (sc_data sc !! ATTR_PATH) as [ref|] eqn:Hp].
  - apply always_try_except;
      [|intros ? ?; repeat always_step ltac:(by repeat split)].
    apply always_bind; [destruct ref; constructor|].
    intros url ->%as_str_ok.
    apply always_bind; [|intros ? ?; apply always_ret].
    eapply always_impl; [apply url_fetches|].
    intros e (Ho & Hx & Hf). split; [|split].
    + intros He. destruct (Hf He) as [Hal Hev]. eauto.
    + by rewrite Ho.
    + by rewrite Hx.
  - apply always_try_except;
      [|intros ? ?; repeat always_step ltac:(by repeat split)].
    apply always_bind; [destruct ref; constructor|].
    intros p ->%as_str_ok.
    apply always_bind; [|intros ? ?; apply always_ret].
    apply always_bind; [apply always_emit; by repeat split|].
    intros _ _. eapply always_impl; [apply path_opens|].
    intros e [Hf Ho]. split; [|split].
    + by rewrite Hf.
    + intros He. destruct (Ho He) as [Hal Hev]. eauto.
    + done.
  - apply always_ret.
Qed.

Lemma handle_service_in_io colorthief globals sc :
  always (λ e,
    (is_fetch e = true →
     ∃ url, sc_data sc !! ATTR_URL = Some (VStr url) ∧
            is_allowed_external_url (sc_hass sc) url = true ∧
            (e = HttpGet url 10 ∨ e = ContentRead)) ∧
    (is_file_open e = true →
     ∃ p, sc_data sc !! ATTR_URL = None ∧
          sc_data sc !! ATTR_PATH = Some (VStr p) ∧
          is_allowed_path (sc_hass sc) p = true ∧
          e = ImageOpen (FilePath p)) ∧
    (is_executor_job e = true → sc_data sc !! ATTR_URL = None))
    (handle_service_in colorthief globals sc).
Proof.
  apply handle_service_in_always; [apply extraction_step_io|].
  intros entity p e _ _ He. unfold call_events in He.
  apply elem_of_cons in He as [->|He]; [done|].
  apply list_elem_of_singleton in He as ->. done.
Qed.

(** X8.  Whatever the request, the host, the library and the module's
    globals, every network operation of the handler (the GET and the read of
    the body) is on the URL of the request, which the external-URL allowlist
    has accepted, and the GET runs under the 10-second timeout. *)
Theorem X8_fetch_only_allowed_url
    (colorthief : ColorThiefLib) (globals : gmap string pyobj)
    (service_call : ServiceCall) :
  Forall (λ e, is_fetch e = true →
     ∃ url, sc_data service_call !! ATTR_URL = Some (VStr url) ∧
            is_allowed_external_url (sc_hass service_call) url = true ∧
            (e = HttpGet url 10 ∨ e = ContentRead))
    (trace (handle_service_in colorthief globals service_call)).
Proof.
  eapply Forall_impl; [apply handle_service_in_io|].
  intros e (H & _ & _). exact H.
Qed.

(** X9.  Whatever the request, the host, the library and the module's
    globals, the only local file the handler opens is the path of a request
    that has no URL, and only after the allowed-directories check has
    accepted it. *)
Theorem X9_open_only_allowed_path
    (colorthief : ColorThiefLib) (globals : gmap string pyobj)
    (service_call : ServiceCall) :
  Forall (λ e, is_file_open e = true →
     ∃ p, sc_data service_call !! ATTR_URL = None ∧
          sc_data service_call !! ATTR_PATH = Some (VStr p) ∧
          is_allowed_path (sc_hass service_call) p = true ∧
          e = ImageOpen (FilePath p))
    (trace (handle_service_in colorthief globals service_call)).
Proof.
  eapply Forall_impl; [apply handle_service_in_io|].
  intros e (_ & H & _). exact H.
Qed.

(** X10.  A request that has a URL never takes the path branch, even when a
    path is given too: no job is handed to the executor and no local file is
    opened. *)
Theorem X10_url_wins_over_path
    (colorthief : ColorThiefLib) (globals : gmap string pyobj)
    (service_call : ServiceCall) (image_reference : value) :
  sc_data service_call !! ATTR_URL = Some image_reference →
  Forall (λ e, is_executor_job e = false ∧ is_file_open e = false)
    (trace (handle_service_in colorthief globals service_call)).
Proof.
  intros Hurl. eapply Forall_impl; [apply handle_service_in_io|].
  intros e (_ & Ho & Hx). rewrite Hurl in *. split.
  - destruct (is_executor_job e); [by specialize (Hx eq_refl) | done].
  - destruct (is_file_open e); [|done].
    by destruct (Ho eq_refl) as (p & ? & _).
Qed.

Lemma X10_witness :
  Forall (λ e, is_executor_job e = false ∧ is_file_open e = false)
    (trace (handle_service_in Sample.thief
              (globals_with_hass Sample.open_hass)
              Sample.both_references_call)).
Proof.
  exact (X10_url_wins_over_path Sample.thief
           (globals_with_hass Sample.open_hass) Sample.both_references_call
           (VStr "https://example.com/cover.jpg") eq_refl).
Defined.

(** ** Requests the handler cannot serve *)

(** X11.  Service data without [entity_id] (a target given by area or
    device only): the handler raises [KeyError] at its second statement,
    before any allowlist check, fetch, file open, log record or call. *)
Theorem X11_missing_entity_id_KeyError
    (colorthief : ColorThiefLib) (globals : gmap string pyobj)
    (service_call : ServiceCall) :
  sc_data service_call !! ATTR_ENTITY_ID = None →
  handle_service_in colorthief globals service_call
  = ([], Raise (KeyError "entity_id")).
Proof.
  intros Hent. apply handle_service_in_no_count.
  unfold count_lights, getitem. by rewrite Hent.
Qed.

Lemma X11_witness :
  async_handle_service Sample.thief Sample.area_call
  = ([], Raise (KeyError "entity_id")).
Proof.
  exact (X11_missing_entity_id_KeyError Sample.thief services_globals
           Sample.area_call eq_refl).
Defined.

(** X12.  Service data with neither a URL nor a path (the schema lets none
    through, but the handler can be called on them): no branch binds
    [colors], and the test after the [try] raises [UnboundLocalError], with
    nothing performed. *)
Theorem X12_no_reference_UnboundLocalError
    (colorthief : ColorThiefLib) (globals : gmap string pyobj)
    (service_call : ServiceCall) (n : nat) :
  sc_data service_call !! ATTR_URL = None →
  sc_data service_call !! ATTR_PATH = None →
  count_lights (sc_data service_call) = ([], Ok n) →
  handle_service_in colorthief globals service_call
  = ([], Raise (UnboundLocalError "colors")).
Proof.
  intros Hu Hp Hn. rewrite (handle_service_in_unfold _ _ _ n Hn).
  unfold extraction_step. by rewrite Hu, Hp.
Qed.

Lemma X12_witness :
  async_handle_service Sample.thief Sample.no_reference_call
  = ([], Raise (UnboundLocalError "colors")).
Proof.
  exact (X12_no_reference_UnboundLocalError Sample.thief services_globals
           Sample.no_reference_call 1 eq_refl eq_refl eq_refl).
Defined.

(** X13.  A failure of the GET that is neither a [TimeoutError] nor an
    aiohttp [ClientError] (nor an [UnidentifiedImageError], which the
    handler's own [except] would take) is not logged and reaches the caller
    of the handler; no call is issued. *)
Theorem X13_other_get_error_propagates
    (colorthief : ColorThiefLib) (globals : gmap string pyobj)
    (service_call : ServiceCall) (url : string) (err : exn) (n : nat) :
  sc_data service_call !! ATTR_URL = Some (VStr url) →
  is_allowed_external_url (sc_hass service_call) url = true →
  session_get (sc_hass service_call) url 10 = Raise err →
  is_http_error err = false →
  is_unidentified_image err = false →
  count_lights (sc_data service_call) = ([], Ok n) →
  handle_service_in colorthief globals service_call
  = ([LogDebug "Getting predominant RGB from image URL '%s'" [AStr url];
      HttpGet url 10], Raise err).
Proof.
  intros Hurl Hok Hget Hhttp Himg Hn.
  rewrite (handle_service_in_unfold _ _ _ n Hn).
  unfold extraction_step. rewrite Hurl. simpl.
  unfold _async_extract_color_from_url. rewrite Hok, Hget. simpl.
  rewrite Hhttp. simpl. by rewrite Himg.
Qed.

Lemma X13_witness :
  async_handle_service Sample.thief Sample.odd_get_call
  = ([LogDebug "Getting predominant RGB from image URL '%s'"
        [AStr "https://example.com/cover.jpg"];
      HttpGet "https://example.com/cover.jpg" 10],
     Raise (TypeError "URL must be a string")).
Proof.
  exact (X13_other_get_error_propagates Sample.thief services_globals
           Sample.odd_get_call "https://example.com/cover.jpg"
           (TypeError "URL must be a string") 1
           eq_refl eq_refl eq_refl eq_refl eq_refl eq_refl).
Defined.

(** X14.  Of the exceptions raised while ColorThief opens the image, the
    handler catches [UnidentifiedImageError] only: any other one reaches the
    caller right after the open, with no error logged and no call issued. *)
Theorem X14_other_image_error_propagates
    (colorthief : ColorThiefLib) (globals : gmap string pyobj)
    (service_call : ServiceCall)
    (key image_type : string) (image_reference : value)
    (f : file_handler) (before : list event) (n : nat) (err : exn) :
  acquired service_call key image_type image_reference f before →
  thief_open colorthief f = Raise err →
  is_unidentified_image err = false →
  count_lights (sc_data service_call) = ([], Ok n) →
  handle_service_in colorthief globals service_call
  = (before ++ [ImageOpen f], Raise err).
Proof.
  intros Hacq Hopen Himg Hn.
  rewrite (handle_service_in_unfold _ _ _ n Hn).
  unfold extraction_step.
  destruct Hacq as [url content resp Hurl Hok Hget Hread | p Hurl Hpath Hok].
  - rewrite Hurl. simpl. unfold _async_extract_color_from_url.
    rewrite Hok, Hget. simpl. rewrite Hread.
    rewrite (_get_color_raises _ _ _ _ Hopen). simpl. by rewrite Himg.
  - rewrite Hurl, Hpath. simpl. unfold _extract_color_from_path, _get_file.
    rewrite Hok. simpl.
    rewrite (_get_color_raises _ _ _ _ Hopen). simpl. by rewrite Himg.
Qed.

Lemma X14_witness :
  async_handle_service Sample.failing_thief Sample.path_call
  = ([ExecutorJob;
      LogDebug "Getting predominant RGB from file path '%s'"
        [AStr "/config/www/cover.jpg"];
      ImageOpen (FilePath "/config/www/cover.jpg")],
     Raise (TypeError "cannot read the file")).
Proof.
  exact (X14_other_image_error_propagates Sample.failing_thief
           services_globals Sample.path_call ATTR_PATH "file path"
           (VStr "/config/www/cover.jpg") (FilePath "/config/www/cover.jpg")
           _ 1 (TypeError "cannot read the file")
           (acquired_path Sample.path_call "/config/www/cover.jpg"
              eq_refl eq_refl eq_refl)
           eq_refl eq_refl eq_refl).
Defined.

(** ** One request to the extractor, at most one error record *)

Lemma after_extraction_calls_only globals fl :
  always (λ e, is_call e = true) (after_extraction globals fl).
Proof.
  destruct fl as [|sd [colors|]]; simpl; try constructor.
  destruct (truthy colors); [|constructor].
  unfold getitem. destruct (sd !! ATTR_ENTITY_ID); [|constructor].
  rewrite ret_bind. eapply always_impl; [apply dispatch_events|].
  intros e (p & _ & He). unfold call_events in He.
  apply elem_of_cons in He as [->|He]; [done|].
  by apply list_elem_of_singleton in He as ->.
Qed.

Lemma filter_always_nil {A} (P : event → bool) (Q : event → Prop) (m : M A) :
  always Q m → (∀ e, Q e → P e = false) →
  filter (λ e, P e = true) (trace m) = [].
Proof.
  intros H Himp. apply filter_avoids. eapply always_impl; eauto.
Qed.

(** X15.  On a request whose image is acquired and decodes, the handler
    asks the extractor exactly once, always at quality 1: for the dominant
    color when the count of lights is 1, and otherwise for a palette of as
    many colors as the count, zero included. *)
Theorem X15_extractor_asked_once
    (colorthief : ColorThiefLib) (globals : gmap string pyobj)
    (service_call : ServiceCall)
    (key image_type : string) (image_reference : value)
    (f : file_handler) (before : list event) (n : nat) :
  acquired service_call key image_type image_reference f before →
  thief_open colorthief f = Ok () →
  count_lights (sc_data service_call) = ([], Ok n) →
  filter (λ e, is_extractor_call e = true)
    (trace (handle_service_in colorthief globals service_call))
  = [if decide (n = 1%nat) then ThiefGetColor 1 else ThiefGetPalette 1 n].
Proof.
  intros Hacq Hopen Hn.
  rewrite (handle_service_in_unfold _ _ _ n Hn), trace_bind.
  rewrite (extraction_step_decodes _ _ _ _ _ _ _ _ Hacq Hopen).
  unfold trace at 1, outcome. cbn [fst snd].
  rewrite !filter_app.
  rewrite (filter_always_nil is_extractor_call _ _
             (after_extraction_calls_only globals _)), app_nil_r;
    [|by intros []].
  assert (Hb : filter (λ e, is_extractor_call e = true) before = [])
    by (by destruct Hacq).
  rewrite Hb. unfold extraction_events.
  by destruct (decide (n = 1%nat)).
Qed.

Lemma X15_witness :
  filter (λ e, is_extractor_call e = true)
    (trace (handle_service_in Sample.thief
              (globals_with_hass Sample.open_hass)
              Sample.three_lights_call))
  = [ThiefGetPalette 1 3].
Proof.
  exact (X15_extractor_asked_once Sample.thief
           (globals_with_hass Sample.open_hass) Sample.three_lights_call
           ATTR_URL "URL" (VStr "https://example.com/cover.jpg")
           (BytesIO "JFIF" "color_palette_extractor.jpg") _ 3
           (acquired_url Sample.three_lights_call
              "https://example.com/cover.jpg" "JFIF"
              {| content_read := Ok "JFIF" |}
              eq_refl eq_refl eq_refl eq_refl)
           eq_refl eq_refl).
Defined.

Lemma _get_color_no_error colorthief f n :
  error_logs (trace (_get_color colorthief f n)) = [].
Proof.
  unfold _get_color.
  destruct (thief_open colorthief f) as [[]|e]; [|done].
  by destruct (decide (n = 1%nat)).
Qed.

(** An extraction function logs no error, or logs one and returns. *)
Lemma url_errors colorthief hass url n :
  error_logs (trace (_async_extract_color_from_url colorthief hass url n)) = []
  ∨ (length (error_logs
               (trace (_async_extract_color_from_url colorthief hass url n)))
     = 1%nat
     ∧ ∃ a, outcome (_async_extract_color_from_url colorthief hass url n)
            = Ok a).
Proof.
  unfold _async_extract_color_from_url.
  destruct (is_allowed_external_url hass url); simpl negb; cbv iota;
    [|right; eauto].
  destruct (session_get hass url 10) as [resp|err]; simpl.
  - destruct (content_read resp) as [content|e]; simpl; [|by left].
    pose proof (_get_color_no_error colorthief
                  (BytesIO content "color_palette_extractor.jpg") n) as Hc.
    destruct (_get_color _ _ _) as [t [cs|e]]; simpl in *; left;
      by rewrite ?app_nil_r.
  - destruct (is_http_error err); simpl; [right; eauto | by left].
Qed.

Lemma path_errors colorthief hass p n :
  error_logs (trace (_extract_color_from_path colorthief hass p n)) = []
  ∨ (length (error_logs
               (trace (_extract_color_from_path colorthief hass p n)))
     = 1%nat
     ∧ ∃ a, outcome (_extract_color_from_path colorthief hass p n) = Ok a).
Proof.
  unfold _extract_color_from_path, _get_file.
  destruct (is_allowed_path hass p); simpl negb; cbv iota; [|right; eauto].
  pose proof (_get_color_no_error colorthief (FilePath p) n) as Hc.
  destruct (_get_color _ _ _) as [t [cs|e]]; simpl in *; left;
    by rewrite ?app_nil_r.
Qed.

(** The one [except] clause adds its record only to a body that raised,
    which had then logged no error. *)
Lemma guarded_errors {A} (body : M A) (h : exn → M flow) (k : A → flow) :
  (error_logs (trace body) = []
   ∨ (length (error_logs (trace body)) = 1%nat ∧ ∃ a, outcome body = Ok a)) →
  (∀ e, length (error_logs (trace (h e))) = 1%nat) →
  (length (error_logs
             (trace (try_except (body ≫= λ a, mret (k a))
                       is_unidentified_image h))) ≤ 1)%nat.
Proof.
  intros Hbody Hh. destruct body as [t [a|e]].
  - rewrite bind_ok. unfold try_except, trace, outcome in *.
    cbn [fst snd mret M_ret] in *. rewrite app_nil_r.
    destruct Hbody as [-> | [-> _]]; simpl; lia.
  - rewrite bind_raise. unfold try_except, trace, outcome in *.
    cbn [fst snd] in *.
    destruct Hbody as [Ht | [_ [a [=]]]].
    destruct (is_unidentified_image e); cbn [fst]; [|rewrite Ht; simpl; lia].
    specialize (Hh e). destruct (h e) as [t' r]. cbn [fst] in *.
    rewrite error_logs_app, Ht, length_app, Hh. simpl. lia.
Qed.

Lemma extraction_step_errors colorthief sc d n :
  (length (error_logs (trace (extraction_step colorthief sc d n))) ≤ 1)%nat.
Proof.
  unfold extraction_step.
  destruct (d !! ATTR_URL) as [ref|]; [|destruct (d !! ATTR_PATH) as [ref|]].
  - destruct ref as [url| | | |]; try (simpl; lia).
    unfold as_str. rewrite ret_bind.
    apply (guarded_errors _ _ (λ colors, Continue _ (Some colors)));
      [apply url_errors | done].
  - destruct ref as [p| | | |]; try (simpl; lia).
    unfold as_str. rewrite ret_bind.
    apply (guarded_errors _ _ (λ colors, Continue _ (Some colors)));
      [|done].
    unfold async_add_executor_job.
    destruct (path_errors colorthief (sc_hass sc) p n) as [H|[H [a Ha]]];
      destruct (_extract_color_from_path _ _ _ _) as [t r];
      simpl in *; [by left|right]. subst. eauto.
  - simpl. lia.
Qed.

(** X16.  Whatever the request, the host, the library and the module's
    globals, one run of the handler logs at most one error: a refused
    reference, a failed GET and an unrecognized image exclude one another. *)
Theorem X16_at_most_one_error_logged
    (colorthief : ColorThiefLib) (globals : gmap string pyobj)
    (service_call : ServiceCall) :
  (length (error_logs
             (trace (handle_service_in colorthief globals service_call)))
   ≤ 1)%nat.
Proof.
  unfold handle_service_in.
  rewrite trace_bind, count_lights_trace, app_nil_l.
  destruct (outcome (count_lights _)) as [n|e]; [|simpl; lia].
  rewrite trace_bind, error_logs_app.
  assert (Hafter : ∀ fl, error_logs (trace (after_extraction globals fl)) = []).
  { intros fl. pose proof (after_extraction_calls_only globals fl) as H.
    unfold always in H. induction H as [|e t He _ IH]; [done|].
    by destruct e. }
  pose proof (extraction_step_errors colorthief service_call
                (sc_data service_call) n).
  destruct (outcome (extraction_step _ _ _ _)) as [fl|e].
  - rewrite Hafter, app_nil_r. done.
  - simpl. rewrite app_nil_r. done.
Qed.

(** ** The schema and the handler together *)

(** X17.  Data that [SERVICE_SCHEMA] has validated have no key the raw
    data lack and hold the image reference of the raw data (neither
    reference being a target field of entity services), so the extraction
    step of the handler, run on them, never leaves [colors] unbound. *)
Theorem X17_validated_data_bind_colors
    (LIGHT_TURN_ON_SCHEMA ENTITY_SERVICE_FIELDS : gmap string field)
    (cv_isfile cv_url : value → result value)
    (colorthief : ColorThiefLib) (hass : HomeAssistant)
    (raw data : gmap string value) (n : nat)
    (service_data : gmap string value) :
  ENTITY_SERVICE_FIELDS !! ATTR_URL = None →
  ENTITY_SERVICE_FIELDS !! ATTR_PATH = None →
  SERVICE_SCHEMA LIGHT_TURN_ON_SCHEMA ENTITY_SERVICE_FIELDS
    cv_isfile cv_url raw = Ok data →
  (∀ k, is_Some (data !! k) → is_Some (raw !! k)) ∧
  (is_Some (data !! ATTR_URL) ↔ is_Some (raw !! ATTR_URL)) ∧
  (is_Some (data !! ATTR_PATH) ↔ is_Some (raw !! ATTR_PATH)) ∧
  outcome (extraction_step colorthief
             {| sc_hass := hass; sc_data := data |} data n)
  ≠ Ok (Continue service_data None).
Proof.
  intros Hnu Hnp Hok.
  destruct (SERVICE_SCHEMA_keys _ _ _ _ Hnu Hnp _ _ Hok) as (Hno & Hu & Hp).
  destruct (SERVICE_SCHEMA_ok _ _ _ _ Hnu Hnp _ _ Hok) as (Hone & _ & _).
  split; [done|]. split; [done|]. split; [done|].
  intros [(_ & _ & Hdu & Hdp)|([? [=]] & _)]%extraction_step_continue.
  destruct Hone as [Hone|Hone].
  - apply Hu in Hone as [? ?]. congruence.
  - apply Hp in Hone as [? ?]. congruence.
Qed.

Lemma X17_witness :
  outcome (extraction_step Sample.thief
             {| sc_hass := Sample.open_hass;
                sc_data := Sample.url_request (VList ["light.a"]) |}
             (Sample.url_request (VList ["light.a"])) 1)
  ≠ Ok (Continue ∅ None).
Proof.
  refine (proj2 (proj2 (proj2
    (X17_validated_data_bind_colors Sample.light_fields Sample.entity_fields
       Ok Ok Sample.thief Sample.open_hass
       (Sample.with_metadata)
       (Sample.url_request (VList ["light.a"])) 1 ∅ _ _ _))));
    by vm_compute.
Defined.

(** X18.  The schema validates the references themselves: data whose URL
    fails [cv.url], or whose path fails [cv.isfile], are rejected (neither
    reference being a target field of entity services). *)
Theorem X18_invalid_reference_rejected
    (LIGHT_TURN_ON_SCHEMA ENTITY_SERVICE_FIELDS : gmap string field)
    (cv_isfile cv_url : value → result value)
    (raw : gmap string value) (key : string) (v : value) :
  ENTITY_SERVICE_FIELDS !! ATTR_URL = None →
  ENTITY_SERVICE_FIELDS !! ATTR_PATH = None →
  raw !! key = Some v →
  (key = ATTR_URL ∧ is_ok (cv_url v) = false) ∨
  (key = ATTR_PATH ∧ is_ok (cv_isfile v) = false) →
  ∃ msg, SERVICE_SCHEMA LIGHT_TURN_ON_SCHEMA ENTITY_SERVICE_FIELDS
           cv_isfile cv_url raw = Raise (Invalid msg).
Proof.
  intros Hnu Hnp Hk Hbad.
  unfold SERVICE_SCHEMA, vol_All, has_at_least_one_key.
  case_bool_decide; [|eauto].
  unfold make_entity_service_schema, vol_All, validate_dict.
  case_bool_decide as Hacc; [|eauto].
  destruct (Hacc key v Hk) as (f & Hf & Hv).
  destruct Hbad as [[-> Hbad]|[-> Hbad]].
  - rewrite (full_schema_url_field _ _ _ _ Hnu) in Hf.
    injection Hf as <-. simpl in Hv. congruence.
  - rewrite (full_schema_path_field _ _ _ _ Hnp) in Hf.
    injection Hf as <-. simpl in Hv. congruence.
Qed.

Lemma X18_witness :
  ∃ msg, SERVICE_SCHEMA Sample.light_fields Sample.entity_fields
           (λ _, Raise (Invalid "not a file")) Ok
           (Sample.path_request (VList ["light.a"]))
         = Raise (Invalid msg).
Proof.
  refine (X18_invalid_reference_rejected Sample.light_fields
            Sample.entity_fields (λ _, Raise (Invalid "not a file")) Ok
            (Sample.path_request (VList ["light.a"])) ATTR_PATH
            (VStr "/config/www/cover.jpg") _ _ _ _);
    first [ by vm_compute | right; by vm_compute ].
Defined.

(** The schema on the frontend's [metadata], on two brightnesses, and with
    a target validator that lists a single entity id. *)
Example schema_strips_metadata :
  Sample.schema Sample.with_metadata
  = Ok (Sample.url_request (VList ["light.a"])).
Proof. by vm_compute. Qed.

Example schema_rejects_two_brightnesses :
  Sample.schema Sample.two_brightnesses
  = Raise (Invalid "two or more values in the same group of exclusion").
Proof. by vm_compute. Qed.

Example listed_string_entity_asks_for_one :
  colors_requested
    (trace (call_service
              (async_setup_services Sample.light_fields
                 Sample.listing_entity_fields Ok Ok Sample.thief)
              Sample.open_hass DOMAIN SERVICE_TURN_ON
              (Sample.url_request (VStr "light.a"))))
  = [1%nat].
Proof. by vm_compute. Qed.
